(** * stock_predictor backend: the email/password authentication routes

  A shallow embedding of
    - backend/app/models/user.py     (request and response models),
    - backend/app/utils/database.py  (the three store accessors),
    - backend/app/routes/auth.py     (register, login, get_me, verify_token),
  over a small model of the MongoDB collection "User", followed by the
  properties of the authentication contract.

  Python values are a tagged union, documents and JSON-like bodies are
  finite maps from field names to values, the collection is the list of its
  documents in insertion order, and a handler is a computation over the
  world (collection, id generator, clock, salt source) that ends in a value
  or in an exception. *)

From Stdlib Require Import ZArith NArith Ascii String List Bool Lia.
From stdpp Require Import base option list gmap strings fin_maps.

Local Open Scope string_scope.
Local Open Scope Z_scope.

(** ** Python values and dictionaries *)

(** bson.ObjectId: twelve bytes, kept as the number they spell big-endian,
  below 2^96. Numbers from 2^96 on stand for the shorter byte strings that
  [ObjectId] lets through (see [ObjectId_of_bytes]). *)
Definition ObjectId : Type := N.

(** datetime values, in seconds since the epoch. *)
Definition DateTime : Type := Z.

(** timedelta values, in seconds. *)
Definition TimeDelta : Type := Z.

Inductive PyVal : Type :=
| VNone
| VBool (b : bool)
| VInt (z : Z)
| VStr (s : string)
| VOid (o : ObjectId)
| VDate (t : DateTime).

#[global] Instance PyVal_eq_dec : EqDecision PyVal.
Proof. solve_decision. Defined.

(** A Python dict with string keys: a Mongo document, a JWT claim set or a
  JSON body. *)
Abbreviation Dict := (gmap string PyVal).

(** Truth value of a dict in a Python condition: empty dicts are falsy. *)
Definition dict_truthy (d : Dict) : bool := negb (bool_decide (d = ∅)).

(** Truth value of [Optional[dict]]: [None] is falsy, a dict as above. *)
Definition opt_truthy (o : option Dict) : bool :=
match o with
| None => false
| Some d => dict_truthy d
end.

(** ** ObjectId and its 24 digit hexadecimal form *)

Definition hex_digit (n : N) : ascii :=
ascii_of_N (if (n <? 10)%N then 48 + n else 87 + n)%N.

Definition hex_val (c : ascii) : option N :=
let n := N_of_ascii c in
if ((48 <=? n) && (n <=? 57))%N then Some (n - 48)%N
else if ((97 <=? n) && (n <=? 102))%N then Some (n - 87)%N
else if ((65 <=? n) && (n <=? 70))%N then Some (n - 55)%N
else None.

(** [hex_render k n]: the [k] low hexadecimal digits of [n], most significant
  first. *)
Fixpoint hex_render (k : nat) (n : N) : string :=
match k with
| O => EmptyString
| S k' => append (hex_render k' (n / 16)%N)
                 (String (hex_digit (n mod 16)%N) EmptyString)
end.

(** ASCII whitespace, as [bytes.fromhex] skips it: tab, line feed, vertical
  tab, form feed, carriage return and space. *)
Definition is_space (c : ascii) : bool :=
let n := N_of_ascii c in
(((9 <=? n) && (n <=? 13)) || (n =? 32))%N.

(** [bytes.fromhex(s)]: the bytes spelled by pairs of hexadecimal digits;
  whitespace before a pair is skipped, anything else is a ValueError. *)
Fixpoint fromhex (s : string) : option (list N) :=
match s with
| EmptyString => Some []
| String c r =>
    if is_space c then fromhex r
    else
      match hex_val c, r with
      | Some hi, String c' r' =>
          match hex_val c' with
          | Some lo => option_map (cons (16 * hi + lo)%N) (fromhex r')
          | None => None
          end
      | _, _ => None
      end
end.

(** The number a byte string spells, most significant byte first. *)
Definition be_value (bs : list N) : N :=
fold_left (λ a b, 256 * a + b)%N bs 0%N.

(** The id with the given bytes: twelve bytes are kept as the number they
  spell; fewer than twelve, which [ObjectId] lets through from a string
  with blanks, are kept above 2^96 together with their count. *)
Definition ObjectId_of_bytes (bs : list N) : ObjectId :=
if Nat.eqb (length bs) 12 then be_value bs
else (2 ^ 96 + 2 ^ (8 * N.of_nat (length bs)) + be_value bs)%N.

(** [str(oid)] *)
Definition ObjectId_str (o : ObjectId) : string := hex_render 24 o.

(** [ObjectId(s)] on a string: a string of 24 characters that
  [bytes.fromhex] accepts gives the id with those bytes, any other string
  is an [InvalidId]. *)
Definition ObjectId_of_str (s : string) : option ObjectId :=
if Nat.eqb (String.length s) 24
then option_map ObjectId_of_bytes (fromhex s)
else None.


(** ** Exceptions and responses *)

Inductive Exc : Type :=
| HTTPException (status_code : Z) (detail : string)
                (headers : list (string * string))
| RequestValidationError
| KeyError (key : string)
| InvalidId
| TypeError
| DuplicateKeyError.

#[global] Instance Exc_eq_dec : EqDecision Exc.
Proof. solve_decision. Defined.

Definition HTTP_201_CREATED : Z := 201.
Definition HTTP_200_OK : Z := 200.
Definition HTTP_400_BAD_REQUEST : Z := 400.
Definition HTTP_401_UNAUTHORIZED : Z := 401.
Definition HTTP_404_NOT_FOUND : Z := 404.

(** Status a client sees for an exception that leaves a handler: an
  HTTPException carries its own, a body that fails validation is answered
  with 422, anything else is an internal error. *)
Definition status_of (e : Exc) : Z :=
match e with
| HTTPException s _ _ => s
| RequestValidationError => 422
| _ => 500
end.

(** The failures the routes raise themselves. *)
Definition EmailAlreadyRegistered : Exc :=
HTTPException HTTP_400_BAD_REQUEST "Email already registered" [].
Definition InvalidCredentials : Exc :=
HTTPException HTTP_401_UNAUTHORIZED "Incorrect email or password"
              [("WWW-Authenticate", "Bearer")].
Definition UserNotFound : Exc :=
HTTPException HTTP_404_NOT_FOUND "User not found" [].

(** ** The world a request runs in *)

Inductive StoreOp : Type :=
| FindOne (filter : Dict)
| InsertOne (doc : Dict).

Definition is_read (o : StoreOp) : bool :=
match o with FindOne _ => true | InsertOne _ => false end.
Definition is_write (o : StoreOp) : bool :=
match o with FindOne _ => false | InsertOne _ => true end.

Record World : Type := mkWorld {
users : list Dict;       (* collection "User", in insertion order *)
oids : nat;              (* ObjectIds generated so far *)
ticks : nat;             (* clock readings so far *)
draws : nat;             (* salts drawn so far *)
journal : list StoreOp   (* store operations issued, oldest first *)
}.

Definition reads (w : World) : nat := length (filter is_read (journal w)).
Definition writes (w : World) : nat := length (filter is_write (journal w)).

(** A computation: runs in a world, leaves a world, and ends in an exception
  or a value. Changes made before an exception stay. *)
Definition M (A : Type) : Type := World → World * (Exc + A).

Definition ret {A} (a : A) : M A := λ w, (w, inr a).
Definition raise {A} (e : Exc) : M A := λ w, (w, inl e).
Definition bind {A B} (m : M A) (k : A → M B) : M B :=
λ w, match m w with
     | (w', inr a) => k a w'
     | (w', inl e) => (w', inl e)
     end.

(** [try: m  except: h] with a bare [except]. *)
Definition try_except {A} (m : M A) (h : M A) : M A :=
λ w, match m w with
     | (w', inr a) => (w', inr a)
     | (w', inl _) => h w'
     end.

Notation "'let*' x := m 'in' k" := (bind m (λ x, k))
(at level 10, x name, m at level 100, k at level 200, only parsing).

(** ** Request and response models (models/user.py) *)

Module UserRegister.
Record t : Type := mk {
  email : string;
  password : string;
  name : option string
}.
End UserRegister.

Module UserLogin.
Record t : Type := mk {
  email : string;
  password : string
}.
End UserLogin.

Module UserResponse.
Record t : Type := mk {
  id : string;
  email : string;
  name : option string;
  createdAt : DateTime
}.
End UserResponse.

(** [d.get(k)]: the value, or [None] when the key is missing. *)
Definition dict_get (d : Dict) (k : string) : PyVal := default VNone (d !! k).

(** [d[k]]: the value, or a KeyError. *)
Definition dict_item (d : Dict) (k : string) : M PyVal :=
match d !! k with
| Some v => ret v
| None => raise (KeyError k)
end.

(** An [Optional[str]] as a Python value. *)
Definition of_opt_str (o : option string) : PyVal :=
match o with
| Some s => VStr s
| None => VNone
end.

(** [timedelta(minutes=m)] *)
Definition timedelta_minutes (m : Z) : TimeDelta := 60 * m.

(** ** World updates *)

Definition set_users (us : list Dict) (w : World) : World :=
mkWorld us (oids w) (ticks w) (draws w) (journal w).
Definition next_oid (w : World) : World :=
mkWorld (users w) (S (oids w)) (ticks w) (draws w) (journal w).
Definition next_tick (w : World) : World :=
mkWorld (users w) (oids w) (S (ticks w)) (draws w) (journal w).
Definition next_draw (w : World) : World :=
mkWorld (users w) (oids w) (ticks w) (S (draws w)) (journal w).
Definition record_op (o : StoreOp) (w : World) : World :=
mkWorld (users w) (oids w) (ticks w) (draws w) (journal w ++ [o]).

(** A document matches a filter when it has every field of the filter with
  the same value. *)
Definition matches (q d : Dict) : bool :=
forallb (λ kv, bool_decide (d !! kv.1 = Some kv.2)) (map_to_list q).

(** Why a token codec refuses a token. *)
Inductive JwtError : Type := BadSignature | Malformed.


(** What the process is started with and what it draws from outside.

  [clock k] is the [k]-th reading of [datetime.utcnow()], [oid_source k]
  the [k]-th ObjectId the driver generates, [str_other] Python's [str()]
  on values that are neither [str] nor [ObjectId], and [validate_email]
  pydantic's [EmailStr]: the normalised address, or a rejection.

  The remaining fields are the primitives behind app/utils/auth.py, which
  is not part of the sources at hand: a salted password hash, a signed
  token codec and the configured expiry window. *)
Class Env : Type := {
clock : nat → DateTime;
oid_source : nat → ObjectId;
str_other : PyVal → string;
validate_email : string → option string;
Salt : Type;
salt_source : nat → Salt;
bcrypt_hash : Salt → string → string;
bcrypt_verify : string → PyVal → bool;
Jwt : Type;
jwt_encode : Dict → Jwt;
jwt_decode : Jwt → JwtError + Dict;
ACCESS_TOKEN_EXPIRE_MINUTES : Z
}.

Section Auth.

Context {E : Env}.

(** *** Clock, salts, ids *)

Definition utcnow : M DateTime :=
  λ w, (next_tick w, inr (clock (ticks w))).

Definition gen_salt : M Salt :=
  λ w, (next_draw w, inr (salt_source (draws w))).

Definition gen_oid : M ObjectId :=
  λ w, (next_oid w, inr (oid_source (oids w))).

(** [ObjectId(v)]: a fresh id for [None], a copy of an ObjectId, the parse
    of a string; [InvalidId] for a string that is not 24 hexadecimal digits
    and [TypeError] for any other value. *)
Definition ObjectId_new (v : PyVal) : M ObjectId :=
  match v with
  | VNone => gen_oid
  | VOid o => ret o
  | VStr s =>
      match ObjectId_of_str s with
      | Some o => ret o
      | None => raise InvalidId
      end
  | _ => raise TypeError
  end.

(** [str(v)] *)
Definition py_str (v : PyVal) : string :=
  match v with
  | VStr s => s
  | VOid o => ObjectId_str o
  | _ => str_other v
  end.

(** *** The collection (pymongo) *)

(** [collection.find_one(q)]: the first document that matches, if any. *)
Definition find_one (q : Dict) : M (option Dict) :=
  λ w, (record_op (FindOne q) w, inr (List.find (matches q) (users w))).

(** [collection.insert_one(doc)]: a document without [_id] gets a generated
    one; the document is appended unless its [_id] is taken. Returns the
    caller's dict, updated in place with the id, and the id. A datetime is
    kept as it is given: that BSON cuts it to the millisecond is not
    modelled, so the stored document and the caller's dict carry the same
    times. *)
Definition insert_one (doc : Dict) : M (Dict * PyVal) :=
  let* i := match doc !! "_id" with
            | Some v => ret v
            | None => let* o := gen_oid in ret (VOid o)
            end in
  let doc' := <["_id" := i]> doc in
  λ w, let w' := record_op (InsertOne doc') w in
       if existsb (matches {["_id" := i]}) (users w)
       then (w', inl DuplicateKeyError)
       else (set_users (users w ++ [doc']) w', inr (doc', i)).

(** *** utils/database.py

    The three accessors, on the collection ["User"] of the database that
    [get_database()] has returned; [Process] below puts that call in
    front. *)

Definition get_user_by_email (email : string) : M (option Dict) :=
  let* user := find_one {["email" := VStr email]} in
  ret user.

Definition create_user (email hashed_password : string)
    (name : option string) : M Dict :=
  let* created := utcnow in
  let* updated := utcnow in
  let user_data : Dict :=
    <["email" := VStr email]>
    (<["password" := VStr hashed_password]>
    (<["name" := of_opt_str name]>
    (<["provider" := VStr "email"]>
    (<["createdAt" := VDate created]>
    (<["updatedAt" := VDate updated]> ∅))))) in
  let* result := insert_one user_data in
  let user_data := <["_id" := result.2]> result.1 in
  ret user_data.

Definition get_user_by_id (user_id : PyVal) : M (option Dict) :=
  try_except
    (let* o := ObjectId_new user_id in
     let* user := find_one {["_id" := VOid o]} in
     ret user)
    (ret None).

(** *** utils/auth.py *)

Definition challenge : list (string * string) :=
  [("WWW-Authenticate", "Bearer")].
Definition ExpiredToken : Exc :=
  HTTPException HTTP_401_UNAUTHORIZED "ExpiredToken" challenge.
Definition InvalidSignature : Exc :=
  HTTPException HTTP_401_UNAUTHORIZED "InvalidSignature" challenge.
Definition MalformedToken : Exc :=
  HTTPException HTTP_401_UNAUTHORIZED "MalformedToken" challenge.

(** Modelled from the spec: [get_password_hash] of app/utils/auth.py is
    missing. The digest is salted, with a salt drawn anew on each call. *)
Definition get_password_hash (password : string) : M string :=
  let* salt := gen_salt in
  ret (bcrypt_hash salt password).

(** Modelled from the spec: [verify_password] of app/utils/auth.py is
    missing. It recomputes with the salt in the digest, compares, and
    answers false instead of raising on a digest it cannot read. *)
Definition verify_password (plain_password : string)
    (hashed_password : PyVal) : bool :=
  bcrypt_verify plain_password hashed_password.

(** Modelled from the spec: [create_access_token] of app/utils/auth.py is
    missing. The token embeds the given claims, an expiry [ttl] after the
    time of issue, and the time of issue. *)
Definition create_access_token (data : Dict) (expires_delta : TimeDelta)
    : M Jwt :=
  let* now := utcnow in
  ret (jwt_encode (<["exp" := VInt (now + expires_delta)]>
                   (<["iat" := VInt now]> data))).

(** Modelled from the spec: [get_current_user] of app/utils/auth.py is
    missing. It verifies the bearer token, passes the verifier's failure
    kinds on as 401 with a challenge header, and on success returns the
    embedded claims unchanged. *)
Definition get_current_user (token : Jwt) : M Dict :=
  match jwt_decode token with
  | inl BadSignature => raise InvalidSignature
  | inl Malformed => raise MalformedToken
  | inr claims =>
      let* now := utcnow in
      match claims !! "exp" with
      | Some (VInt exp) =>
          if exp <? now then raise ExpiredToken else ret claims
      | _ => ret claims
      end
  end.

(** *** models/user.py: validation of request bodies *)

Definition min_length_password : nat := 6.

(** [name: Optional[str] = None] *)
Definition validate_name (v : option PyVal) : option (option string) :=
  match v with
  | None | Some VNone => Some None
  | Some (VStr s) => Some (Some s)
  | Some _ => None
  end.

Definition UserRegister_validate (body : Dict) : option UserRegister.t :=
  match body !! "email", body !! "password", validate_name (body !! "name") with
  | Some (VStr e), Some (VStr p), Some n =>
      match validate_email e with
      | Some e' =>
          if (min_length_password <=? String.length p)%nat
          then Some (UserRegister.mk e' p n)
          else None
      | None => None
      end
  | _, _, _ => None
  end.

Definition UserLogin_validate (body : Dict) : option UserLogin.t :=
  match body !! "email", body !! "password" with
  | Some (VStr e), Some (VStr p) =>
      match validate_email e with
      | Some e' => Some (UserLogin.mk e' p)
      | None => None
      end
  | _, _ => None
  end.

(** [Token]: the body of a register or login answer. *)
Record Token : Type := mkToken {
  access_token : Jwt;
  token_type : string
}.

(** *** routes/auth.py *)

(** Register a new user with email and password. *)
Definition register (user_data : UserRegister.t) : M Token :=
  let* existing_user := get_user_by_email (UserRegister.email user_data) in
  if opt_truthy existing_user then raise EmailAlreadyRegistered
  else
    let* hashed_password :=
      get_password_hash (UserRegister.password user_data) in
    let* new_user :=
      create_user (UserRegister.email user_data) hashed_password
                  (UserRegister.name user_data) in
    let access_token_expires :=
      timedelta_minutes ACCESS_TOKEN_EXPIRE_MINUTES in
    let* new_id := dict_item new_user "_id" in
    let* access_token :=
      create_access_token
        (<["sub" := VStr (py_str new_id)]>
         (<["email" := VStr (UserRegister.email user_data)]> ∅))
        access_token_expires in
    ret (mkToken access_token "bearer").

(** Login with email and password. *)
Definition login (user_credentials : UserLogin.t) : M Token :=
  let* user := get_user_by_email (UserLogin.email user_credentials) in
  match user with
  | None => raise InvalidCredentials
  | Some user =>
      if negb (dict_truthy user) then raise InvalidCredentials
      else
        let* stored := dict_item user "password" in
        if negb (verify_password (UserLogin.password user_credentials)
                                 stored)
        then raise InvalidCredentials
        else
          let access_token_expires :=
            timedelta_minutes ACCESS_TOKEN_EXPIRE_MINUTES in
          let* user_id := dict_item user "_id" in
          let* user_email := dict_item user "email" in
          let* access_token :=
            create_access_token
              (<["sub" := VStr (py_str user_id)]>
               (<["email" := user_email]> ∅))
              access_token_expires in
          ret (mkToken access_token "bearer")
  end.

(** Get current authenticated user information. *)
Definition get_me (current_user : Dict) : M Dict :=
  let user_id := dict_get current_user "sub" in
  let* user := get_user_by_id user_id in
  match user with
  | None => raise UserNotFound
  | Some user =>
      if negb (dict_truthy user) then raise UserNotFound
      else
        let* uid := dict_item user "_id" in
        let* uemail := dict_item user "email" in
        let uname := dict_get user "name" in
        let* ucreated := dict_item user "createdAt" in
        ret (<["id" := VStr (py_str uid)]>
             (<["email" := uemail]>
             (<["name" := uname]>
             (<["createdAt" := ucreated]> ∅))))
  end.

(** Verify if the token is valid. *)
Definition verify_token (current_user : Dict) : M Dict :=
  ret (<["valid" := VBool true]>
       (<["user_id" := dict_get current_user "sub"]>
       (<["email" := dict_get current_user "email"]> ∅))).

(** *** The four routes as the framework serves them

    A body is validated against the handler's model before the handler
    runs; a handler that depends on [get_current_user] runs on the claims
    that dependency returns. *)

Definition POST_register (body : Dict) : M (Z * Token) :=
  match UserRegister_validate body with
  | None => raise RequestValidationError
  | Some user_data =>
      let* r := register user_data in ret (HTTP_201_CREATED, r)
  end.

Definition POST_login (body : Dict) : M (Z * Token) :=
  match UserLogin_validate body with
  | None => raise RequestValidationError
  | Some user_credentials =>
      let* r := login user_credentials in ret (HTTP_200_OK, r)
  end.

Definition GET_me (token : Jwt) : M (Z * Dict) :=
  let* current_user := get_current_user token in
  let* r := get_me current_user in
  ret (HTTP_200_OK, r).

Definition POST_verify (token : Jwt) : M (Z * Dict) :=
  let* current_user := get_current_user token in
  let* r := verify_token current_user in
  ret (HTTP_200_OK, r).

(** *** The service as a sequence of requests *)

Inductive Request : Type :=
  | ReqRegister (body : Dict)
  | ReqLogin (body : Dict)
  | ReqMe (token : Jwt)
  | ReqVerify (token : Jwt).

(** The world a request leaves behind. *)
Definition serve (r : Request) (w : World) : World :=
  match r with
  | ReqRegister body => (POST_register body w).1
  | ReqLogin body => (POST_login body w).1
  | ReqMe token => (GET_me token w).1
  | ReqVerify token => (POST_verify token w).1
  end.

(** Requests served one after the other. *)
Definition serve_all (rs : list Request) (w : World) : World :=
  foldl (λ w r, serve r w) w rs.

(** *** Vocabulary of the properties *)

(** No two documents of the collection carry the same email. *)
Definition email_unique (us : list Dict) : Prop :=
  ∀ (i j : nat) (d1 d2 : Dict) (v : PyVal),
    us !! i = Some d1 → us !! j = Some d2 →
    d1 !! "email" = Some v → d2 !! "email" = Some v → i = j.

(** Some document carries the email [e]. *)
Definition email_taken (e : string) (us : list Dict) : Prop :=
  ∃ d : Dict, d ∈ us ∧ d !! "email" = Some (VStr e).

(** No document has the id [o]. *)
Definition oid_free (o : ObjectId) (us : list Dict) : Prop :=
  ∀ d : Dict, d ∈ us → d !! "_id" ≠ Some (VOid o).


(** The document [create_user] builds and stores. *)
Definition user_record (email digest : string) (name : option string)
    (created updated : DateTime) (o : ObjectId) : Dict :=
  <["_id" := VOid o]>
  (<["email" := VStr email]>
  (<["password" := VStr digest]>
  (<["name" := of_opt_str name]>
  (<["provider" := VStr "email"]>
  (<["createdAt" := VDate created]>
  (<["updatedAt" := VDate updated]> ∅)))))).

(** The claim set of an issued token. *)
Definition token_claims (sub : string) (email : PyVal) (issued : DateTime)
    (ttl : TimeDelta) : Dict :=
  <["exp" := VInt (issued + ttl)]>
  (<["iat" := VInt issued]>
  (<["sub" := VStr sub]>
  (<["email" := email]> ∅))).

(** The public projection of a stored user. *)
Definition public_projection (uid uemail uname ucreated : PyVal) : Dict :=
  <["id" := VStr (py_str uid)]>
  (<["email" := uemail]>
  (<["name" := uname]>
  (<["createdAt" := ucreated]> ∅))).

(** How the current-user operation ends once the lookup has returned. *)
Definition answer_me (user : option Dict) : Exc + Dict :=
  match user with
  | None => inl UserNotFound
  | Some user =>
      if dict_truthy user then
        match user !! "_id", user !! "email", user !! "createdAt" with
        | None, _, _ => inl (KeyError "_id")
        | Some _, None, _ => inl (KeyError "email")
        | Some _, Some _, None => inl (KeyError "createdAt")
        | Some uid, Some uemail, Some ucreated =>
            inr (public_projection uid uemail (dict_get user "name") ucreated)
        end
      else inl UserNotFound
  end.

End Auth.

(** ** The connection handle (utils/database.py, [get_database])

    The module keeps two globals, [client] and [db], both [None] at import.
    [MongoClient(...)] rejects a connection string it cannot parse; a client
    answers [get_database()] with the database its connection string names
    and with a ConfigurationError when it names none. *)
Module Connection.

Record ClientOptions : Type := mkOptions {
  tls : bool;
  tlsCAFile : string;
  tlsAllowInvalidCertificates : bool;
  tlsAllowInvalidHostnames : bool;
  serverSelectionTimeoutMS : Z;
  connectTimeoutMS : Z;
  socketTimeoutMS : Z
}.

(** A client object; [serial] tells the objects the process constructed
    apart. *)
Record MongoClient : Type := mkClient {
  serial : nat;
  host : option string;
  options : ClientOptions
}.

Record Database : Type := mkDatabase {
  database_client : MongoClient;
  database_name : string
}.

Inductive ConnError : Type :=
  | InvalidURI
  | ConfigurationError.

(** What the driver makes of a connection string. *)
Inductive UriOutcome : Type :=
  | BadUri
  | GoodUri (default_database : option string).

(** What the process is deployed with: the environment variable
    DATABASE_URL, the CA bundle [certifi.where()] points to, and the
    driver's reading of the connection string. *)
Record Deployment : Type := mkDeployment {
  DATABASE_URL : option string;
  certifi_where : string;
  parse_uri : UriOutcome
}.

(** The globals of the module, and the number of clients constructed. *)
Record Globals : Type := mkGlobals {
  client : option MongoClient;
  db : option Database;
  constructed : nat
}.

(** The globals right after import. *)
Definition at_import : Globals := mkGlobals None None 0.

(** Get MongoDB database instance. *)
Definition get_database (dep : Deployment) (g : Globals)
    : Globals * (ConnError + Database) :=
  match db g with
  | None =>
      match parse_uri dep with
      | BadUri => (g, inl InvalidURI)
      | GoodUri default_database =>
          let c := mkClient (constructed g) (DATABASE_URL dep)
                     (mkOptions true (certifi_where dep) false false
                        30000 20000 20000) in
          match default_database with
          | None =>
              (mkGlobals (Some c) (db g) (S (constructed g)),
               inl ConfigurationError)
          | Some name =>
              let d := mkDatabase c name in
              (mkGlobals (Some c) (Some d) (S (constructed g)), inr d)
          end
      end
  | Some d => (g, inr d)
  end.

(** [n] calls one after the other: the globals they leave and what each
    call returned, first call first. *)
Fixpoint calls (dep : Deployment) (n : nat) (g : Globals)
    : Globals * list (ConnError + Database) :=
  match n with
  | O => (g, [])
  | S n' =>
      let (g1, r) := get_database dep g in
      let (g2, rs) := calls dep n' g1 in
      (g2, r :: rs)
  end.

End Connection.

(** ** The accessors with their call of [get_database]

    The accessors of utils/database.py modelled above act on the collection
    ["User"] of a database that has been obtained. In the source each of them
    begins with [database = get_database()], outside any [try]. Here that
    call is put in front, over the globals of the module together with the
    world, for [get_user_by_id] and for the handler that calls it. *)
Module Process.

Record t : Type := mk {
  globals : Connection.Globals;
  world : World
}.

(** How a computation over the process fails: with an error of the
    connection, or with an exception raised on the collection or by a
    handler. *)
Inductive Failure : Type :=
  | ConnectionFailed (e : Connection.ConnError)
  | Raised (e : Exc).


Definition P (A : Type) : Type := t → t * (Failure + A).

Definition ok {A} (a : A) : P A := λ p, (p, inr a).
Definition fail {A} (e : Exc) : P A := λ p, (p, inl (Raised e)).
Definition and_then {A B} (m : P A) (k : A → P B) : P B :=
  λ p, match m p with
       | (p', inr a) => k a p'
       | (p', inl f) => (p', inl f)
       end.

(** A computation on the collection, run in the world of the process. *)
Definition on_collection {A} (m : M A) : P A :=
  λ p, match m (world p) with
       | (w, inr a) => (mk (globals p) w, inr a)
       | (w, inl e) => (mk (globals p) w, inl (Raised e))
       end.

Section Accessors.

Context {E : Env}.
Variable deployment : Connection.Deployment.

(** [database = get_database()] *)
Definition get_database : P Connection.Database :=
  λ p, match Connection.get_database deployment (globals p) with
       | (g, inr database) => (mk g (world p), inr database)
       | (g, inl e) => (mk g (world p), inl (ConnectionFailed e))
       end.

(** utils/database.py, [get_user_by_id]: the call of [get_database], then
    the lookup inside [try] with its bare [except]. *)
Definition get_user_by_id (user_id : PyVal) : P (option Dict) :=
  and_then get_database (λ database,
  on_collection (get_user_by_id user_id)).

(** routes/auth.py, [get_me], over that accessor. *)
Definition get_me (current_user : Dict) : P Dict :=
  let user_id := dict_get current_user "sub" in
  and_then (get_user_by_id user_id) (λ user,
  match user with
  | None => fail UserNotFound
  | Some user =>
      if negb (dict_truthy user) then fail UserNotFound
      else
        on_collection
          (let* uid := dict_item user "_id" in
           let* uemail := dict_item user "email" in
           let uname := dict_get user "name" in
           let* ucreated := dict_item user "createdAt" in
           ret (<["id" := VStr (py_str uid)]>
                (<["email" := uemail]>
                (<["name" := uname]>
                (<["createdAt" := ucreated]> ∅)))))
  end).

End Accessors.

End Process.

(** ** A small concrete environment

  Used to run the routes on concrete requests: a clock that advances one
  second per reading, consecutive ObjectIds, a hash that only tags the
  password, and tokens that are their own claim sets. *)
Module Demo.
Definition clock (k : nat) : DateTime := 1700000000 + Z.of_nat k.
Definition oid_source (k : nat) : ObjectId := (1000 + N.of_nat k)%N.
Definition str_other (v : PyVal) : string :=
  match v with
  | VNone => "None"
  | VBool true => "True"
  | VBool false => "False"
  | _ => ""
  end.
Definition validate_email (s : string) : option string :=
  if existsb (Ascii.eqb "@"%char) (list_ascii_of_string s)
  then Some s else None.
Definition Salt : Type := nat.
Definition salt_source (k : nat) : Salt := k.
Definition bcrypt_hash (_ : Salt) (p : string) : string := append "$demo$" p.
Definition bcrypt_verify (p : string) (h : PyVal) : bool :=
  bool_decide (h = VStr (append "$demo$" p)).
Definition Jwt : Type := Dict.
Definition jwt_encode (c : Dict) : Jwt := c.
Definition jwt_decode (t : Jwt) : JwtError + Dict := inr t.
Definition ACCESS_TOKEN_EXPIRE_MINUTES : Z := 30.


Definition env : Env :=
Build_Env clock oid_source str_other validate_email Salt salt_source
bcrypt_hash bcrypt_verify Jwt jwt_encode jwt_decode
ACCESS_TOKEN_EXPIRE_MINUTES.

Definition empty_world : World := mkWorld [] 0 0 0 [].

(** A first registration, and the world it leaves. *)
Definition body_a : Dict :=
  <["email" := VStr "a@x.com"]> (<["password" := VStr "secret1"]> ∅).
Definition user_a : UserRegister.t :=
  UserRegister.mk "a@x.com" "secret1" None.
Definition record_a : Dict :=
  user_record "a@x.com" "$demo$secret1" None 1700000000 1700000001 1000%N.
Definition token_a : Token (E := env) :=
  mkToken (E := env)
    (token_claims "0000000000000000000003e8" (VStr "a@x.com")
       1700000002 1800) "bearer".
Definition world_a : World := (register (E := env) user_a empty_world).1.

(** The same registration with another password. *)
Definition user_a' : UserRegister.t :=
  UserRegister.mk "a@x.com" "hunter22" None.
Definition world_a' : World := (register (E := env) user_a' empty_world).1.

(** A login of that user, and the world it leaves. *)
Definition login_a : UserLogin.t := UserLogin.mk "a@x.com" "secret1".
Definition token_b : Token (E := env) :=
  mkToken (E := env)
    (token_claims "0000000000000000000003e8" (VStr "a@x.com")
       1700000003 1800) "bearer".
Definition world_b : World := (login (E := env) login_a world_a).1.

(** Other requests. *)
Definition user_b : UserRegister.t := UserRegister.mk "b@x.com" "secret2" None.
Definition login_wrong : UserLogin.t := UserLogin.mk "a@x.com" "wrong".
Definition login_nobody : UserLogin.t :=
  UserLogin.mk "nobody@x.com" "secret1".
Definition body_short : Dict :=
  <["email" := VStr "c@x.com"]> (<["password" := VStr "abc"]> ∅).

(** Claims of the registered user, claims whose subject is a well-formed id
    that no record has, and claims whose subject is not an ObjectId. *)
Definition claims_a : Dict :=
  token_claims "0000000000000000000003e8" (VStr "a@x.com") 1700000002 1800.
Definition claims_ghost : Dict :=
  token_claims "0000000000000000000003e7" (VStr "g@x.com") 1700000002 1800.

(** A registration with a display name, made after the first one. *)
Definition user_n : UserRegister.t :=
  UserRegister.mk "n@x.com" "secret3" (Some "Nora").
Definition world_n : World := (register (E := env) user_n world_a).1.
Definition token_n : Token (E := env) :=
  mkToken (E := env)
    (token_claims "0000000000000000000003e9" (VStr "n@x.com")
       1700000005 1800) "bearer".
Definition claims_n : Dict :=
  token_claims "0000000000000000000003e9" (VStr "n@x.com") 1700000005 1800.

(** The first record as [create_user] stores it, and the world that leaves. *)
Definition world_c : World :=
  (create_user (E := env) "a@x.com" "$demo$secret1" None empty_world).1.

(** Claims without a subject. *)
Definition claims_anon : Dict := {["email" := VStr "g@x.com"]}.

(** A collection holding one record that was not created by registration:
    it has an id and an email, but no password and no creation time. *)
Definition record_legacy : Dict :=
  <["_id" := VOid 7%N]> (<["email" := VStr "old@x.com"]> ∅).
(** One with a creation time but no name entry, and one with an id only. *)
Definition record_nameless : Dict :=
  <["_id" := VOid 8%N]>
  (<["email" := VStr "anon@x.com"]>
  (<["createdAt" := VDate 1600000000]> ∅)).
Definition record_bare : Dict := <["_id" := VOid 9%N]> ∅.
Definition world_legacy : World :=
  mkWorld [record_legacy; record_nameless; record_bare] 0 0 0 [].
Definition claims_nameless : Dict :=
  token_claims "000000000000000000000008" (VStr "anon@x.com") 1700000002 1800.
Definition claims_bare : Dict :=
  token_claims "000000000000000000000009" (VStr "") 1700000002 1800.
Definition login_legacy : UserLogin.t := UserLogin.mk "old@x.com" "secret1".
Definition claims_legacy : Dict :=
  token_claims "000000000000000000000007" (VStr "old@x.com") 1700000002 1800.

(** A login body with an empty password. *)
Definition body_empty : Dict :=
  <["email" := VStr "a@x.com"]> (<["password" := VStr ""]> ∅).

(** Two deployments: a connection string that names a database, and one
    that names none. *)
Definition deployment : Connection.Deployment :=
  Connection.mkDeployment (Some "mongodb+srv://cluster.example.net/stocks")
    "/etc/ssl/cacert.pem" (Connection.GoodUri (Some "stocks")).
Definition deployment_unnamed : Connection.Deployment :=
  Connection.mkDeployment (Some "mongodb+srv://cluster.example.net")
    "/etc/ssl/cacert.pem" (Connection.GoodUri None).

Definition database : Connection.Database :=
  Connection.mkDatabase
    (Connection.mkClient 0 (Connection.DATABASE_URL deployment)
       (Connection.mkOptions true "/etc/ssl/cacert.pem" false false
          30000 20000 20000))
    "stocks".

(** A 24 character string of eleven hexadecimal pairs and two blanks, and
    claims with it as subject. *)
Definition blank_id : string := "00000000000000000003e8  ".
Definition claims_blank : Dict :=
  token_claims blank_id (VStr "g@x.com") 1700000002 1800.
End Demo.

(** * Properties *)

Section Properties.

Context {E : Env}.

(** *** Basic facts *)

Lemma matches_singleton (k : string) (v : PyVal) (d : Dict) :
  matches {[k := v]} d = bool_decide (d !! k = Some v).
Proof.
  unfold matches. rewrite map_to_list_singleton. simpl.
  apply andb_true_r.
Qed.

Lemma matches_singleton_true (k : string) (v : PyVal) (d : Dict) :
  matches {[k := v]} d = true ↔ d !! k = Some v.
Proof. rewrite matches_singleton. apply bool_decide_eq_true. Qed.

Lemma matches_truthy (k : string) (v : PyVal) (d : Dict) :
  matches {[k := v]} d = true → dict_truthy d = true.
Proof.
  intros Hm%matches_singleton_true. unfold dict_truthy.
  apply negb_true_iff, bool_decide_eq_false. intros ->.
  by rewrite lookup_empty in Hm.
Qed.

Lemma find_truthy (k : string) (v : PyVal) (us : list Dict) (d : Dict) :
  List.find (matches {[k := v]}) us = Some d →
  d ∈ us ∧ d !! k = Some v ∧ dict_truthy d = true.
Proof.
  intros [Hin Hm]%find_some. split; [by apply list_elem_of_In|].
  split; [by apply matches_singleton_true | by eapply matches_truthy].
Qed.

Lemma find_None_free (k : string) (v : PyVal) (us : list Dict) :
  List.find (matches {[k := v]}) us = None ↔
  ∀ d : Dict, d ∈ us → d !! k ≠ Some v.
Proof.
  split.
  - intros H d Hd Hk. apply list_elem_of_In in Hd.
    pose proof (find_none _ _ H d Hd) as Hf.
    apply matches_singleton_true in Hk. congruence.
  - intros H. induction us as [|d us IH]; [done|]. simpl.
    destruct (matches {[k := v]} d) eqn:Hm.
    + apply matches_singleton_true in Hm.
      exfalso. eapply H; [left|done].
    + apply IH. intros d' Hd'. apply H. by right.
Qed.

Lemma existsb_false_free (k : string) (v : PyVal) (us : list Dict) :
  existsb (matches {[k := v]}) us = false ↔
  ∀ d : Dict, d ∈ us → d !! k ≠ Some v.
Proof.
  split.
  - intros H d Hd Hk. apply not_true_iff_false in H. apply H.
    apply existsb_exists. exists d.
    split; [by apply list_elem_of_In | by apply matches_singleton_true].
  - intros H. apply not_true_iff_false.
    intros (d & Hd & Hm)%existsb_exists.
    apply (H d); [by apply list_elem_of_In | by apply matches_singleton_true].
Qed.

Lemma find_app_Some {A} (f : A → bool) (l l' : list A) (x : A) :
  List.find f l = Some x → List.find f (l ++ l') = Some x.
Proof.
  induction l as [|a l IH]; [done|]. simpl. by destruct (f a).
Qed.

Lemma find_app_None {A} (f : A → bool) (l l' : list A) :
  List.find f l = None → List.find f (l ++ l') = List.find f l'.
Proof.
  induction l as [|a l IH]; [done|]. simpl. by destruct (f a).
Qed.

Lemma find_None_not_taken (e : string) (us : list Dict) :
  List.find (matches {["email" := VStr e]}) us = None → ¬ email_taken e us.
Proof.
  intros Hf (d & Hd & He). eapply find_None_free in Hf; eauto.
Qed.

Lemma existsb_false_oid_free (o : ObjectId) (us : list Dict) :
  existsb (matches {["_id" := VOid o]}) us = false → oid_free o us.
Proof. intros H. exact (proj1 (existsb_false_free _ _ _) H). Qed.

Lemma email_unique_singleton (d : Dict) : email_unique [d].
Proof.
  intros i j d1 d2 v Hi Hj _ _.
  apply list_lookup_singleton_Some in Hi as [-> _].
  by apply list_lookup_singleton_Some in Hj as [-> _].
Qed.

(** *** What each accessor and handler computes *)

Lemma get_user_by_email_eq (e : string) (w : World) :
  get_user_by_email e w =
  (record_op (FindOne {["email" := VStr e]}) w,
   inr (List.find (matches {["email" := VStr e]}) (users w))).
Proof. reflexivity. Qed.

Lemma create_user_eq (e h : string) (n : option string) (w : World) :
  let o := oid_source (oids w) in
  let doc := user_record e h n (clock (ticks w)) (clock (S (ticks w))) o in
  let w' := record_op (InsertOne doc) (next_oid (next_tick (next_tick w))) in
  create_user e h n w =
  if existsb (matches {["_id" := VOid o]}) (users w)
  then (w', inl DuplicateKeyError)
  else (set_users (users w ++ [doc]) w', inr doc).
Proof.
  intros o doc w'. unfold create_user, insert_one, bind, utcnow, gen_oid, ret.
  cbn [ticks next_tick oids next_oid users fst snd].
  rewrite !lookup_insert_ne by done. rewrite lookup_empty.
  cbn [ticks next_tick oids next_oid users fst snd].
  fold o. destruct (existsb _ (users w)); [done|].
  cbn [fst snd]. by rewrite insert_insert_eq.
Qed.

Lemma register_eq (ud : UserRegister.t) (w : World) :
  let e := UserRegister.email ud in
  let q : Dict := {["email" := VStr e]} in
  let w1 := record_op (FindOne q) w in
  let h := bcrypt_hash (salt_source (draws w)) (UserRegister.password ud) in
  let o := oid_source (oids w) in
  let doc := user_record e h (UserRegister.name ud)
               (clock (ticks w)) (clock (S (ticks w))) o in
  let w2 := record_op (InsertOne doc)
              (next_oid (next_tick (next_tick (next_draw w1)))) in
  register ud w =
  match List.find (matches q) (users w) with
  | Some _ => (w1, inl EmailAlreadyRegistered)
  | None =>
      if existsb (matches {["_id" := VOid o]}) (users w)
      then (w2, inl DuplicateKeyError)
      else (next_tick (set_users (users w ++ [doc]) w2),
            inr (mkToken
                   (jwt_encode
                      (token_claims (ObjectId_str o) (VStr e)
                         (clock (S (S (ticks w))))
                         (timedelta_minutes ACCESS_TOKEN_EXPIRE_MINUTES)))
                   "bearer"))
  end.
Proof.
  intros e q w1 h o doc w2. unfold register.
  unfold bind at 1. rewrite get_user_by_email_eq. fold e q w1.
  destruct (List.find (matches q) (users w)) as [u|] eqn:Hf.
  - apply find_truthy in Hf as (_ & _ & Ht). simpl. by rewrite Ht.
  - simpl. unfold bind at 1. unfold get_password_hash, bind at 1.
    unfold gen_salt, ret at 1.
    unfold bind at 1. rewrite create_user_eq.
    subst w1 w2. cbn [users oids ticks draws next_draw record_op].
    fold e h o doc.
    destruct (existsb _ (users w)); [done|].
    unfold bind at 1, dict_item.
    replace (doc !! "_id") with (Some (VOid o))
      by (symmetry; apply lookup_insert_eq).
    reflexivity.
Qed.

Lemma login_eq (uc : UserLogin.t) (w : World) :
  let e := UserLogin.email uc in
  let q : Dict := {["email" := VStr e]} in
  let w1 := record_op (FindOne q) w in
  login uc w =
  match List.find (matches q) (users w) with
  | None => (w1, inl InvalidCredentials)
  | Some user =>
      match user !! "password" with
      | None => (w1, inl (KeyError "password"))
      | Some stored =>
          if bcrypt_verify (UserLogin.password uc) stored then
            match user !! "_id" with
            | None => (w1, inl (KeyError "_id"))
            | Some i =>
                (next_tick w1,
                 inr (mkToken
                        (jwt_encode
                           (token_claims (py_str i) (VStr e)
                              (clock (ticks w))
                              (timedelta_minutes
                                 ACCESS_TOKEN_EXPIRE_MINUTES)))
                        "bearer"))
            end
          else (w1, inl InvalidCredentials)
      end
  end.
Proof.
  intros e q w1. unfold login.
  unfold bind at 1. rewrite get_user_by_email_eq. fold e q w1.
  destruct (List.find (matches q) (users w)) as [u|] eqn:Hf; [|done].
  apply find_truthy in Hf as (_ & He & Ht). rewrite Ht. simpl.
  unfold bind at 1, dict_item at 1.
  destruct (u !! "password") as [stored|]; [|done].
  unfold ret at 1, verify_password.
  destruct (bcrypt_verify _ stored); [|done]. simpl.
  unfold bind at 1, dict_item at 1.
  destruct (u !! "_id") as [i|]; [|done].
  unfold ret at 1. unfold bind at 1, dict_item at 1. rewrite He.
  reflexivity.
Qed.

Lemma get_user_by_id_eq (v : PyVal) (w : World) :
  let look (o : ObjectId) (w0 : World) : World * (Exc + option Dict) :=
    (record_op (FindOne {["_id" := VOid o]}) w0,
     inr (List.find (matches {["_id" := VOid o]}) (users w0))) in
  get_user_by_id v w =
  match v with
  | VNone => look (oid_source (oids w)) (next_oid w)
  | VOid o => look o w
  | VStr s =>
      match ObjectId_of_str s with
      | Some o => look o w
      | None => (w, inr None)
      end
  | _ => (w, inr None)
  end.
Proof.
  intros look. unfold get_user_by_id, try_except, bind, ObjectId_new.
  destruct v as [| | |s| |]; try reflexivity.
  by destruct (ObjectId_of_str s).
Qed.

Lemma get_user_by_id_found (v : PyVal) (w w' : World) (user : Dict) :
  get_user_by_id v w = (w', inr (Some user)) →
  ∃ o : ObjectId,
    users w' = users w ∧
    (∃ w1, ObjectId_new v w = (w1, inr o)) ∧
    List.find (matches {["_id" := VOid o]}) (users w) = Some user.
Proof.
  rewrite get_user_by_id_eq. unfold ObjectId_new, gen_oid, ret.
  destruct v as [| | |s|o|]; try discriminate.
  - intros [= <- Hf]. eauto.
  - destruct (ObjectId_of_str s) as [o|]; [|discriminate].
    intros [= <- Hf]. eauto.
  - intros [= <- Hf]. eauto.
Qed.

Lemma get_user_by_id_absent (v : PyVal) (w : World) :
  (∀ w1 o, ObjectId_new v w = (w1, inr o) → oid_free o (users w)) →
  ∃ w', get_user_by_id v w = (w', inr None) ∧ users w' = users w.
Proof.
  intros Hfree. rewrite get_user_by_id_eq.
  unfold ObjectId_new, gen_oid, ret in Hfree.
  assert (∀ o w0, users w0 = users w → oid_free o (users w) →
    ∃ w', (record_op (FindOne {["_id" := VOid o]}) w0,
           @inr Exc _ (List.find (matches {["_id" := VOid o]}) (users w0)))
          = (w', inr None) ∧ users w' = users w) as Hlook.
  { intros o w0 Hu Hf. rewrite Hu.
    rewrite (proj2 (find_None_free "_id" (VOid o) (users w)) Hf).
    eexists. split; [reflexivity|]. by rewrite <- Hu. }
  destruct v as [| | |s|o|]; eauto.
  destruct (ObjectId_of_str s) as [o|]; eauto.
Qed.

Lemma get_me_eq (cu : Dict) (w : World) :
  get_me cu w =
  match get_user_by_id (dict_get cu "sub") w with
  | (w', inl e) => (w', inl e)
  | (w', inr user) => (w', answer_me user)
  end.
Proof.
  unfold get_me. unfold bind at 1.
  destruct (get_user_by_id _ w) as [w' [e|[user|]]]; try reflexivity.
  simpl. destruct (dict_truthy user); [|reflexivity]. simpl.
  unfold bind, dict_item, ret, raise.
  by destruct (user !! "_id"), (user !! "email"), (user !! "createdAt").
Qed.

Lemma get_current_user_ok (token : Jwt) (w w' : World) (claims : Dict) :
  get_current_user token w = (w', inr claims) →
  w' = next_tick w ∧ jwt_decode token = inr claims.
Proof.
  unfold get_current_user.
  destruct (jwt_decode token) as [[]|c]; try discriminate.
  unfold bind, utcnow, ret, raise.
  destruct (c !! "exp") as [[| |z| | |]|];
    try (intros [= <- <-]; done).
  destruct (z <? _); [discriminate|]. by intros [= <- <-].
Qed.

(** *** The collection only grows *)

Lemma login_users (uc : UserLogin.t) (w : World) :
  users (login uc w).1 = users w.
Proof.
  rewrite login_eq.
  repeat (case_match; try reflexivity).
Qed.

Lemma get_user_by_id_users (v : PyVal) (w : World) :
  users (get_user_by_id v w).1 = users w.
Proof.
  rewrite get_user_by_id_eq.
  repeat (case_match; try reflexivity).
Qed.

Lemma get_me_users (cu : Dict) (w : World) :
  users (get_me cu w).1 = users w.
Proof.
  rewrite get_me_eq.
  pose proof (get_user_by_id_users (dict_get cu "sub") w) as H.
  destruct (get_user_by_id _ w) as [w' r]. simpl in H.
  repeat (case_match; try assumption).
Qed.

Lemma get_current_user_frame (token : Jwt) (w : World) :
  users (get_current_user token w).1 = users w ∧
  journal (get_current_user token w).1 = journal w.
Proof.
  unfold get_current_user, bind, utcnow, ret, raise.
  repeat (case_match; try done).
Qed.

Lemma register_users (ud : UserRegister.t) (w : World) :
  users (register ud w).1 = users w ∨
  (List.find (matches {["email" := VStr (UserRegister.email ud)]})
     (users w) = None ∧
   ∃ doc : Dict,
     doc !! "email" = Some (VStr (UserRegister.email ud)) ∧
     users (register ud w).1 = (users w ++ [doc])%list).
Proof.
  rewrite register_eq.
  destruct (List.find _ (users w)) eqn:Hf; [by left|].
  destruct (existsb _ (users w)); [by left|].
  right. split; [done|]. eexists. split; [|reflexivity].
  unfold user_record. by rewrite lookup_insert_ne, lookup_insert_eq.
Qed.

Lemma serve_users (r : Request) (w : World) :
  users (serve r w) = users w ∨
  ∃ (ud : UserRegister.t) (doc : Dict),
    List.find (matches {["email" := VStr (UserRegister.email ud)]})
      (users w) = None ∧
    doc !! "email" = Some (VStr (UserRegister.email ud)) ∧
    users (serve r w) = (users w ++ [doc])%list.
Proof.
  destruct r as [body|body|token|token]; simpl.
  - unfold POST_register.
    destruct (UserRegister_validate body) as [ud|]; [|by left].
    assert (users (bind (register ud) (λ r, ret (HTTP_201_CREATED, r)) w).1
            = users (register ud w).1) as ->.
    { unfold bind. by destruct (register ud w) as [w' [e|a]]. }
    destruct (register_users ud w) as [H|(Hf & doc & He & H)];
      [by left | right; eauto].
  - left. unfold POST_login.
    destruct (UserLogin_validate body) as [uc|]; [|done].
    rewrite <- (login_users uc w). unfold bind.
    by destruct (login uc w) as [w' [e|a]].
  - left. unfold GET_me.
    destruct (get_current_user_frame token w) as [Hu _].
    unfold bind at 1.
    destruct (get_current_user token w) as [w' [e|cu]]; [done|].
    simpl in Hu. rewrite <- Hu, <- (get_me_users cu w'). unfold bind.
    by destruct (get_me cu w') as [w'' [e|a]].
  - left. unfold POST_verify.
    destruct (get_current_user_frame token w) as [Hu _].
    unfold bind at 1.
    by destruct (get_current_user token w) as [w' [e|cu]].
Qed.

Lemma serve_all_prefix (rs : list Request) (w : World) :
  users w `prefix_of` users (serve_all rs w).
Proof.
  revert w. induction rs as [|r rs IH]; intros w; [done|].
  simpl. etransitivity; [|apply IH].
  destruct (serve_users r w) as [->|(ud & doc & _ & _ & ->)];
    [done | by apply prefix_app_r].
Qed.

Lemma email_unique_snoc (us : list Dict) (doc : Dict) (e : string) :
  email_unique us →
  List.find (matches {["email" := VStr e]}) us = None →
  doc !! "email" = Some (VStr e) →
  email_unique (us ++ [doc])%list.
Proof.
  intros Hu Hf He i j d1 d2 v Hi Hj H1 H2.
  pose proof (proj1 (find_None_free _ _ _) Hf) as Hfree.
  apply lookup_snoc_Some in Hi as [[Hli Hi]|[-> <-]];
    apply lookup_snoc_Some in Hj as [[Hlj Hj]|[-> <-]].
  - by eapply Hu.
  - exfalso. apply (Hfree d1); [by eapply list_elem_of_lookup_2|congruence].
  - exfalso. apply (Hfree d2); [by eapply list_elem_of_lookup_2|congruence].
  - done.
Qed.

Lemma serve_email_unique (r : Request) (w : World) :
  email_unique (users w) → email_unique (users (serve r w)).
Proof.
  intros Hu.
  destruct (serve_users r w) as [->|(ud & doc & Hf & He & ->)]; [done|].
  by eapply email_unique_snoc.
Qed.

(** *** Counting store operations *)

Lemma bind_world {A B} (m : M A) (k : A → M B) (w : World) :
  (bind m k w).1 =
  match m w with
  | (w', inl _) => w'
  | (w', inr a) => (k a w').1
  end.
Proof. unfold bind. by destruct (m w) as [w' [e|a]]. Qed.

Lemma reads_record_op (o : StoreOp) (w : World) :
  reads (record_op o w) = (reads w + if is_read o then 1 else 0)%nat.
Proof.
  unfold reads. simpl. rewrite filter_app, length_app. f_equal.
  rewrite filter_cons, filter_nil.
  destruct (is_read o); by repeat case_decide.
Qed.

Lemma writes_record_op (o : StoreOp) (w : World) :
  writes (record_op o w) = (writes w + if is_write o then 1 else 0)%nat.
Proof.
  unfold writes. simpl. rewrite filter_app, length_app. f_equal.
  rewrite filter_cons, filter_nil.
  destruct (is_write o); by repeat case_decide.
Qed.

Lemma reads_journal (w w' : World) :
  journal w = journal w' → reads w = reads w'.
Proof. unfold reads. by intros ->. Qed.

Lemma writes_journal (w w' : World) :
  journal w = journal w' → writes w = writes w'.
Proof. unfold writes. by intros ->. Qed.

Lemma register_journal (ud : UserRegister.t) (w : World) :
  let q : Dict := {["email" := VStr (UserRegister.email ud)]} in
  match List.find (matches q) (users w) with
  | Some _ => journal (register ud w).1 = (journal w ++ [FindOne q])%list
  | None => ∃ doc : Dict,
      journal (register ud w).1 =
      ((journal w ++ [FindOne q]) ++ [InsertOne doc])%list
  end.
Proof.
  intros q. rewrite register_eq. fold q.
  destruct (List.find (matches q) (users w)); [done|].
  destruct (existsb _ (users w)); by eexists.
Qed.

Lemma login_journal (uc : UserLogin.t) (w : World) :
  journal (login uc w).1 =
  (journal w ++ [FindOne {["email" := VStr (UserLogin.email uc)]}])%list.
Proof.
  rewrite login_eq. repeat (case_match; try reflexivity).
Qed.

Lemma get_me_journal (cu : Dict) (w : World) :
  journal (get_me cu w).1 = journal w ∨
  ∃ q : Dict, journal (get_me cu w).1 = (journal w ++ [FindOne q])%list.
Proof.
  rewrite get_me_eq, get_user_by_id_eq.
  repeat (case_match; simplify_eq; try (by left); try (by right; eexists)).
Qed.

Lemma journal_snoc_counts (w w' : World) (o : StoreOp) :
  journal w' = (journal w ++ [o])%list →
  reads w' = (reads w + if is_read o then 1 else 0)%nat ∧
  writes w' = (writes w + if is_write o then 1 else 0)%nat.
Proof.
  intros Hj.
  rewrite (reads_journal w' (record_op o w)), (writes_journal w' (record_op o w))
    by done.
  by rewrite reads_record_op, writes_record_op.
Qed.

(** *** Rejected requests and failed lookups *)

(** C8: a Register request whose password has fewer than 6 characters is
    answered with a validation error before the handler runs: the world is
    left as it was, so the store was not accessed and no user was created. *)
Theorem short_password_rejected (body : Dict) (p : string) (w : World) :
  body !! "password" = Some (VStr p) →
  (String.length p < 6)%nat →
  POST_register body w = (w, inl RequestValidationError) ∧
  users (POST_register body w).1 = users w ∧
  journal (POST_register body w).1 = journal w.
Proof.
  intros Hp Hlen.
  assert (UserRegister_validate body = None) as Hv.
  { unfold UserRegister_validate. rewrite Hp.
    destruct (body !! "email") as [[| | |e| |]|]; try done.
    destruct (validate_name (body !! "name")); [|done].
    destruct (validate_email e); [|done].
    unfold min_length_password.
    destruct (Nat.leb_spec 6 (String.length p)); [lia|done]. }
  unfold POST_register. by rewrite Hv.
Qed.

(** C3: in every store state, a login with an email no user has and a login
    with the email of a stored user but a password that does not verify
    against the stored digest end in the same exception: the same kind,
    status 401, the same message and the same headers. *)
Theorem login_failures_identical (w : World) (uc1 uc2 : UserLogin.t)
    (user : Dict) (stored : PyVal) :
  ¬ email_taken (UserLogin.email uc1) (users w) →
  (get_user_by_email (UserLogin.email uc2) w).2 = inr (Some user) →
  user !! "password" = Some stored →
  verify_password (UserLogin.password uc2) stored = false →
  (login uc1 w).2 = inl InvalidCredentials ∧
  (login uc2 w).2 = inl InvalidCredentials ∧
  (login uc1 w).2 = (login uc2 w).2 ∧
  status_of InvalidCredentials = 401.
Proof.
  intros Hno Hfound Hstored Hwrong.
  assert ((login uc1 w).2 = inl InvalidCredentials) as H1.
  { rewrite login_eq.
    assert (List.find (matches {["email" := VStr (UserLogin.email uc1)]})
              (users w) = None) as ->; [|done].
    apply find_None_free. intros d Hd He. apply Hno. by exists d. }
  assert ((login uc2 w).2 = inl InvalidCredentials) as H2.
  { rewrite login_eq. rewrite get_user_by_email_eq in Hfound.
    simpl in Hfound. injection Hfound as ->. rewrite Hstored.
    unfold verify_password in Hwrong. by rewrite Hwrong. }
  repeat split; congruence.
Qed.


(** C2 (as the code has it): for a token that verifies and whose subject
    matches no stored user, the current-user operation looks the subject up
    and fails with UserNotFound, status 404; the verify-token operation does
    not consult the store and answers 200 with [valid], the subject and the
    email of the claims. *)
Theorem absent_subject (token : Jwt) (w w0 : World) (cu : Dict) :
  get_current_user token w = (w0, inr cu) →
  (∀ w1 o, ObjectId_new (dict_get cu "sub") w0 = (w1, inr o) →
           oid_free o (users w0)) →
  (∃ w', GET_me token w = (w', inl UserNotFound)) ∧
  status_of UserNotFound = 404 ∧
  POST_verify token w =
    (w0, inr (HTTP_200_OK,
              <["valid" := VBool true]>
              (<["user_id" := dict_get cu "sub"]>
              (<["email" := dict_get cu "email"]> ∅)))) ∧
  journal w0 = journal w.
Proof.
  intros Htok Hfree. split; [|split; [done|split]].
  - destruct (get_user_by_id_absent _ _ Hfree) as (w' & Hid & _).
    exists w'. unfold GET_me, bind at 1. rewrite Htok.
    unfold bind. rewrite get_me_eq. by rewrite Hid.
  - unfold POST_verify, bind at 1. by rewrite Htok.
  - pose proof (get_current_user_frame token w) as [_ Hj].
    by rewrite Htok in Hj.
Qed.

(** C4: email uniqueness holds after any sequence of requests served one
    after the other if it held before; and when a user with the given email
    exists, Register fails with EmailAlreadyRegistered, status 400, writes
    nothing and leaves the collection as it was. *)
Theorem email_uniqueness_invariant (w : World) :
  (∀ rs : list Request,
     email_unique (users w) → email_unique (users (serve_all rs w))) ∧
  (∀ ud : UserRegister.t,
     email_taken (UserRegister.email ud) (users w) →
     ∃ w', register ud w = (w', inl EmailAlreadyRegistered) ∧
           status_of EmailAlreadyRegistered = 400 ∧
           users w' = users w ∧
           writes w' = writes w).
Proof.
  split.
  - intros rs. revert w. induction rs as [|r rs IH]; intros w Hu; [done|].
    simpl. apply IH. by apply serve_email_unique.
  - intros ud (d & Hd & He). rewrite register_eq.
    destruct (List.find _ (users w)) as [u|] eqn:Hf.
    + eexists. split; [reflexivity|]. split; [done|]. split; [done|].
      rewrite writes_record_op. simpl. lia.
    + exfalso. eapply find_None_free in Hf; eauto.
Qed.

(** *** Effects on the store *)

(** C9 (as the code has it): Register performs exactly one store read, and
    one store write when the email is not yet registered and none when it
    is; Login performs exactly one store read and no write; no write occurs
    on Identify, whether reached through the current-user or the verify
    route; and over any sequence of requests the collection is only
    extended at its end, so no stored record is updated or deleted. *)
Theorem store_operations (w : World) :
  (∀ ud : UserRegister.t,
     reads (register ud w).1 = S (reads w) ∧
     (¬ email_taken (UserRegister.email ud) (users w) →
      writes (register ud w).1 = S (writes w)) ∧
     (email_taken (UserRegister.email ud) (users w) →
      writes (register ud w).1 = writes w)) ∧
  (∀ uc : UserLogin.t,
     reads (login uc w).1 = S (reads w) ∧
     writes (login uc w).1 = writes w) ∧
  (∀ cu : Dict,
     writes (get_me cu w).1 = writes w ∧
     writes (verify_token cu w).1 = writes w) ∧
  (∀ token : Jwt,
     writes (GET_me token w).1 = writes w ∧
     writes (POST_verify token w).1 = writes w) ∧
  (∀ rs : list Request, users w `prefix_of` users (serve_all rs w)).
Proof.
  assert (∀ (cu : Dict) (w0 : World),
            writes (get_me cu w0).1 = writes w0) as Hme.
  { intros cu w0. destruct (get_me_journal cu w0) as [Hj|[q Hj]].
    - by apply writes_journal.
    - apply journal_snoc_counts in Hj as [_ ->]. simpl. lia. }
  split; [|split; [|split; [|split]]].
  - intros ud. pose proof (register_journal ud w) as Hj. simpl in Hj.
    destruct (List.find _ (users w)) as [u|] eqn:Hf.
    + apply journal_snoc_counts in Hj as [-> ->]. simpl.
      split; [lia|]. split; [|lia].
      intros Hno. exfalso. apply Hno.
      apply find_truthy in Hf as (Hin & He & _). by exists u.
    + destruct Hj as [doc Hj].
      apply (journal_snoc_counts
               (record_op (FindOne {["email" := VStr (UserRegister.email ud)]})
                          w)) in Hj as [Hr Hw].
      rewrite Hr, Hw, reads_record_op, writes_record_op. simpl.
      split; [lia|]. split; [lia|].
      intros (d & Hd & He). exfalso.
      eapply find_None_free in Hf; eauto.
  - intros uc. pose proof (login_journal uc w) as Hj.
    apply journal_snoc_counts in Hj as [-> ->]. simpl. lia.
  - intros cu. split; [apply Hme | done].
  - intros token.
    destruct (get_current_user_frame token w) as [_ Hj].
    unfold GET_me, POST_verify. rewrite !bind_world.
    destruct (get_current_user token w) as [w0 [e|cu]]; simpl in Hj.
    + split; by apply writes_journal.
    + split; [|by apply writes_journal].
      rewrite <- (writes_journal w0 w Hj), <- (Hme cu w0).
      rewrite bind_world. by destruct (get_me cu w0) as [w1 [e|r]].
  - intros rs. apply serve_all_prefix.
Qed.

(** *** What registration stores and what the tokens carry *)

(** C6 (as the code has it): the record a registration creates is appended
    to the collection and is exactly the document with the generated id, the
    given email and name, the digest of the password under the key
    [password] (there is no [passwordHash] field), [provider] equal to
    "email", and [createdAt] and [updatedAt] read from the clock at
    creation; the password enters the record through the hash only, so the
    stored value differs from the plaintext whenever the digest does. *)
Theorem registered_record (ud : UserRegister.t) (w w' : World) (tok : Token) :
  register ud w = (w', inr tok) →
  let digest :=
    bcrypt_hash (salt_source (draws w)) (UserRegister.password ud) in
  ∃ record : Dict,
    users w' = (users w ++ [record])%list ∧
    record = user_record (UserRegister.email ud) digest (UserRegister.name ud)
               (clock (ticks w)) (clock (S (ticks w)))
               (oid_source (oids w)) ∧
    record !! "password" = Some (VStr digest) ∧
    record !! "passwordHash" = None ∧
    record !! "provider" = Some (VStr "email") ∧
    record !! "createdAt" = Some (VDate (clock (ticks w))) ∧
    record !! "updatedAt" = Some (VDate (clock (S (ticks w)))) ∧
    (digest ≠ UserRegister.password ud →
     record !! "password" ≠ Some (VStr (UserRegister.password ud))).
Proof.
  intros Hreg digest. rewrite register_eq in Hreg.
  destruct (List.find _ (users w)); [discriminate|].
  destruct (existsb _ (users w)); [discriminate|].
  injection Hreg as <- _. eexists. split; [reflexivity|].
  split; [reflexivity|]. fold digest. unfold user_record.
  repeat split; try (by simplify_map_eq).
  intros Hne. simplify_map_eq. congruence.
Qed.

(** *** ObjectIds and their hexadecimal form *)

Lemma hex_val_digit (d : N) : (d < 16)%N → hex_val (hex_digit d) = Some d.
Proof.
  intros Hd. destruct d as [|p]; [reflexivity|].
  do 4 (destruct p as [p|p|]; try reflexivity); lia.
Qed.

Lemma hex_digit_not_space (d : N) : (d < 16)%N → is_space (hex_digit d) = false.
Proof.
  intros Hd. destruct d as [|p]; [reflexivity|].
  do 4 (destruct p as [p|p|]; try reflexivity); lia.
Qed.

Lemma append_cons (c : ascii) (s1 s2 : string) :
  append (String c s1) s2 = String c (append s1 s2).
Proof. reflexivity. Qed.

Lemma append_empty_l (s : string) : append EmptyString s = s.
Proof. reflexivity. Qed.

Lemma append_empty_r (s : string) : append s EmptyString = s.
Proof.
  induction s as [|c s IH]; [done|]. by rewrite append_cons, IH.
Qed.

Lemma append_assoc (s1 s2 s3 : string) :
  append (append s1 s2) s3 = append s1 (append s2 s3).
Proof.
  induction s1 as [|c s1 IH]; [done|]. by rewrite !append_cons, IH.
Qed.

Lemma fromhex_render (k : nat) (n : N) :
  ∃ bs : list N,
    length bs = k ∧
    (∀ a : N, fold_left (λ a b, 256 * a + b)%N bs a
              = (a * 256 ^ N.of_nat k + n mod 256 ^ N.of_nat k)%N) ∧
    ∀ rest : string,
      fromhex (append (hex_render (k + k) n) rest)
      = option_map (app bs) (fromhex rest).
Proof.
  revert n. induction k as [|k IH]; intros n.
  - exists []. split; [done|]. split.
    + intros a. simpl. rewrite N.mod_1_r. lia.
    + intros rest. cbn [hex_render Nat.add]. rewrite append_empty_l.
      by destruct (fromhex rest).
  - destruct (IH (n / 256)%N) as (bs & Hlen & Hval & Hparse).
    exists (bs ++ [(n mod 256)%N])%list. split; [rewrite length_app; simpl; lia|].
    split.
    + intros a. rewrite fold_left_app, Hval. simpl.
      rewrite Nat2N.inj_succ, N.pow_succ_r'.
      rewrite (N.Div0.mod_mul_r n 256). lia.
    + intros rest.
      replace (S k + S k)%nat with (S (S (k + k))) by lia.
      cbn [hex_render]. rewrite N.Div0.div_div. change (16 * 16)%N with 256%N.
      rewrite !append_assoc, Hparse.
      rewrite !append_cons, !append_empty_l. cbn [fromhex].
      assert ((n / 16) mod 16 < 16)%N as H1 by (apply N.mod_lt; lia).
      assert (n mod 16 < 16)%N as H2 by (apply N.mod_lt; lia).
      rewrite (hex_digit_not_space _ H1), (hex_val_digit _ H1),
        (hex_val_digit _ H2).
      assert (16 * ((n / 16) mod 16) + n mod 16 = n mod 256)%N as ->.
      { change 256%N with (16 * 16)%N. rewrite (N.Div0.mod_mul_r n 16). lia. }
      destruct (fromhex rest) as [r|]; simpl; [|done].
      by rewrite <- app_assoc.
Qed.

Lemma length_append (s1 s2 : string) :
  String.length (append s1 s2) = (String.length s1 + String.length s2)%nat.
Proof. induction s1 as [|c s1 IH]; simpl; [done | by rewrite IH]. Qed.

Lemma length_hex_render (k : nat) (n : N) :
  String.length (hex_render k n) = k.
Proof.
  revert n. induction k as [|k IH]; intros n; [done|].
  cbn [hex_render]. rewrite length_append, IH. simpl. lia.
Qed.

Lemma ObjectId_of_str_str (o : ObjectId) :
  (o < 2 ^ 96)%N → ObjectId_of_str (ObjectId_str o) = Some o.
Proof.
  intros Ho. unfold ObjectId_of_str, ObjectId_str.
  rewrite length_hex_render. simpl Nat.eqb. cbv iota.
  destruct (fromhex_render 12 o) as (bs & Hlen & Hval & Hparse).
  specialize (Hparse EmptyString).
  change (12 + 12)%nat with 24%nat in Hparse.
  rewrite append_empty_r in Hparse.
  rewrite Hparse. cbn [fromhex option_map]. rewrite app_nil_r.
  unfold ObjectId_of_bytes, be_value. rewrite Hlen, Hval. simpl Nat.eqb.
  cbv iota. f_equal. change (256 ^ N.of_nat 12)%N with (2 ^ 96)%N.
  rewrite N.mod_small by done. lia.
Qed.





(** *** The current user *)

Lemma find_redacted (q : Dict) (us1 us2 : list Dict) :
  (∀ d : Dict, matches q (delete "password" d) = matches q d) →
  delete "password" <$> us1 = delete "password" <$> us2 →
  delete "password" <$> List.find (matches q) us1
  = delete "password" <$> List.find (matches q) us2.
Proof.
  intros Hq. revert us2.
  induction us1 as [|d1 us1 IH]; intros [|d2 us2] Heq; try done.
  rewrite !fmap_cons in Heq. injection Heq as Hd Hus. simpl.
  rewrite <- (Hq d1), <- (Hq d2), Hd.
  destruct (matches q (delete "password" d2));
    [simpl; by rewrite Hd | by apply IH].
Qed.

Lemma matches_id_redacted (o : ObjectId) (d : Dict) :
  matches {["_id" := VOid o]} (delete "password" d)
  = matches {["_id" := VOid o]} d.
Proof. rewrite !matches_singleton. by rewrite lookup_delete_ne. Qed.

Lemma redacted_lookup (d1 d2 : Dict) (k : string) :
  delete "password" d1 = delete "password" d2 → k ≠ "password" →
  d1 !! k = d2 !! k.
Proof.
  intros Hd Hk.
  rewrite <- (lookup_delete_ne d1 "password" k), Hd by done.
  by apply lookup_delete_ne.
Qed.

(** C5: when the current-user operation succeeds, its answer is the public
    projection of a stored user: exactly the keys [id], [email], [name] and
    [createdAt], with the values of that user's record; it has no
    [password] entry and is the same whatever digests the records hold; and
    it does succeed for the subject of every stored user whose record has an
    email and a creation time. *)
Theorem current_user_projection (w : World) (cu : Dict) :
  (∀ (w' : World) (r : Dict),
     get_me cu w = (w', inr r) →
     ∃ (user : Dict) (uid uemail ucreated : PyVal),
       user ∈ users w ∧
       user !! "_id" = Some uid ∧
       user !! "email" = Some uemail ∧
       user !! "createdAt" = Some ucreated ∧
       r = public_projection uid uemail (dict_get user "name") ucreated ∧
       dom r = ({["id"; "email"; "name"; "createdAt"]} : gset string) ∧
       r !! "password" = None) ∧
  (∀ w2 : World,
     delete "password" <$> users w = delete "password" <$> users w2 →
     oids w = oids w2 →
     (get_me cu w).2 = (get_me cu w2).2) ∧
  (∀ (o : ObjectId) (user : Dict) (uemail ucreated : PyVal),
     (o < 2 ^ 96)%N →
     cu !! "sub" = Some (VStr (ObjectId_str o)) →
     List.find (matches {["_id" := VOid o]}) (users w) = Some user →
     user !! "email" = Some uemail →
     user !! "createdAt" = Some ucreated →
     ∃ w', get_me cu w =
           (w', inr (public_projection (VOid o) uemail (dict_get user "name")
                       ucreated))).
Proof.
  split; [|split].
  - intros w' r Hme. rewrite get_me_eq in Hme.
    destruct (get_user_by_id _ w) as [w0 [e|[user|]]] eqn:Hid;
      try discriminate.
    apply get_user_by_id_found in Hid as (o & _ & _ & Hf).
    apply find_truthy in Hf as (Hin & _ & _). simpl in Hme.
    destruct (dict_truthy user); [|discriminate].
    destruct (user !! "_id") as [uid|] eqn:H1; [|discriminate].
    destruct (user !! "email") as [uemail|] eqn:H2; [|discriminate].
    destruct (user !! "createdAt") as [ucreated|] eqn:H3; [|discriminate].
    injection Hme as _ <-.
    exists user, uid, uemail, ucreated. by repeat split.
  - intros w2 Hus Ho. rewrite !get_me_eq, !get_user_by_id_eq.
    cbv beta iota zeta delta [snd].
    assert (∀ o : ObjectId,
      answer_me (List.find (matches {["_id" := VOid o]}) (users w)) =
      answer_me (List.find (matches {["_id" := VOid o]}) (users w2)))
      as Hlook.
    { intros o.
      pose proof (find_redacted {["_id" := VOid o]} _ _
                    (matches_id_redacted o) Hus) as Hf.
      destruct (List.find _ (users w)) as [u1|] eqn:Hf1;
        destruct (List.find _ (users w2)) as [u2|] eqn:Hf2;
        try discriminate; [|done].
      injection Hf as Hu. simpl.
      apply find_truthy in Hf1 as (_ & _ & ->).
      apply find_truthy in Hf2 as (_ & _ & ->).
      unfold dict_get.
      by rewrite (redacted_lookup u1 u2 "_id"),
        (redacted_lookup u1 u2 "email"),
        (redacted_lookup u1 u2 "createdAt"),
        (redacted_lookup u1 u2 "name"). }
    destruct (dict_get cu "sub") as [| | |s|o|].
    + cbn [users next_oid]. rewrite Ho. apply Hlook.
    + reflexivity.
    + reflexivity.
    + destruct (ObjectId_of_str s) as [o|]; [apply Hlook | reflexivity].
    + apply Hlook.
    + reflexivity.
  - intros o user uemail ucreated Ho Hsub Hf He Hc.
    rewrite get_me_eq, get_user_by_id_eq. unfold dict_get. rewrite Hsub.
    cbv beta iota delta [from_option id].
    rewrite ObjectId_of_str_str by done. rewrite Hf.
    apply find_truthy in Hf as (_ & Hid & Ht). unfold answer_me.
    rewrite Ht, Hid, He, Hc. by eexists.
Qed.

(** *** Tokens *)

(** What the missing primitives are specified to satisfy: a digest verifies
    against the password it was made from, and verifying a token that was
    just encoded returns the embedded claims unchanged. *)
Hypothesis bcrypt_verify_hash : ∀ (salt : Salt) (p : string),
  bcrypt_verify p (VStr (bcrypt_hash salt p)) = true.
Hypothesis jwt_decode_encode : ∀ claims : Dict,
  jwt_decode (jwt_encode claims) = inr claims.

Lemma token_claims_lookup (sub : string) (email : PyVal) (issued ttl : DateTime) :
  let claims := token_claims sub email issued ttl in
  claims !! "sub" = Some (VStr sub) ∧
  claims !! "email" = Some email ∧
  claims !! "iat" = Some (VInt issued) ∧
  claims !! "exp" = Some (VInt (issued + ttl)).
Proof. unfold token_claims. by repeat split; simplify_map_eq. Qed.

(** C7: a registration for an email no user has issues a token that is the
    encoding of claims whose subject is the id of the record just created
    and whose email is the email of the request; a login whose password
    verifies against the record found issues a token that is the encoding of
    claims whose subject is the id of that record and whose email is the
    email stored in it; in both the expiry lies the configured window,
    ACCESS_TOKEN_EXPIRE_MINUTES minutes, after the time of issue, and
    decoding the token returns these claims. The id generated for a new
    record is assumed not to be in use, as the driver guarantees. *)
Theorem issued_token_claims (w : World) :
  (∀ ud : UserRegister.t,
     ¬ email_taken (UserRegister.email ud) (users w) →
     oid_free (oid_source (oids w)) (users w) →
     ∃ (w' : World) (tok : Token) (record : Dict) (issued : DateTime)
       (claims : Dict),
       register ud w = (w', inr tok) ∧
       users w' = (users w ++ [record])%list ∧
       record !! "_id" = Some (VOid (oid_source (oids w))) ∧
       access_token tok = jwt_encode claims ∧
       jwt_decode (access_token tok) = inr claims ∧
       claims !! "sub" = Some (VStr (py_str (VOid (oid_source (oids w))))) ∧
       claims !! "email" = Some (VStr (UserRegister.email ud)) ∧
       claims !! "iat" = Some (VInt issued) ∧
       claims !! "exp"
       = Some (VInt (issued + timedelta_minutes ACCESS_TOKEN_EXPIRE_MINUTES))) ∧
  (∀ (uc : UserLogin.t) (user : Dict) (stored uid : PyVal),
     (get_user_by_email (UserLogin.email uc) w).2 = inr (Some user) →
     user !! "password" = Some stored →
     verify_password (UserLogin.password uc) stored = true →
     user !! "_id" = Some uid →
     ∃ (w' : World) (tok : Token) (uemail : PyVal) (issued : DateTime)
       (claims : Dict),
       login uc w = (w', inr tok) ∧
       user !! "email" = Some uemail ∧
       access_token tok = jwt_encode claims ∧
       jwt_decode (access_token tok) = inr claims ∧
       claims !! "sub" = Some (VStr (py_str uid)) ∧
       claims !! "email" = Some uemail ∧
       claims !! "iat" = Some (VInt issued) ∧
       claims !! "exp"
       = Some (VInt (issued + timedelta_minutes ACCESS_TOKEN_EXPIRE_MINUTES))).
Proof.
  set (ttl := timedelta_minutes ACCESS_TOKEN_EXPIRE_MINUTES). split.
  - intros ud Hno Hfree. rewrite register_eq.
    assert (List.find (matches {["email" := VStr (UserRegister.email ud)]})
              (users w) = None) as ->.
    { apply find_None_free. intros d Hd He. apply Hno. by exists d. }
    rewrite (proj2 (existsb_false_free "_id" _ (users w)) Hfree).
    pose proof (token_claims_lookup (ObjectId_str (oid_source (oids w)))
      (VStr (UserRegister.email ud)) (clock (S (S (ticks w)))) ttl)
      as (Hs & He & Hi & Hx).
    eexists _, _, _, _, _. split; [reflexivity|]. cbn [access_token].
    split; [reflexivity|]. split; [apply lookup_insert_eq|].
    split; [reflexivity|]. split; [apply jwt_decode_encode|]. done.
  - intros uc user stored uid Hfound Hp Hv Hid.
    rewrite get_user_by_email_eq in Hfound. cbn [snd] in Hfound.
    injection Hfound as Hf. unfold verify_password in Hv.
    rewrite login_eq, Hf, Hp, Hv, Hid.
    apply find_truthy in Hf as (_ & Hem & _).
    pose proof (token_claims_lookup (py_str uid)
      (VStr (UserLogin.email uc)) (clock (ticks w)) ttl)
      as (Hs & He & Hi & Hx).
    eexists _, _, (VStr (UserLogin.email uc)), _, _.
    split; [reflexivity|]. cbn [access_token]. split; [done|].
    split; [reflexivity|]. split; [apply jwt_decode_encode|]. done.
Qed.

(** *** Registration followed by login *)

Lemma POST_register_ok (body : Dict) (ud : UserRegister.t) (w : World) :
  UserRegister_validate body = Some ud →
  ¬ email_taken (UserRegister.email ud) (users w) →
  oid_free (oid_source (oids w)) (users w) →
  let record :=
    user_record (UserRegister.email ud)
      (bcrypt_hash (salt_source (draws w)) (UserRegister.password ud))
      (UserRegister.name ud) (clock (ticks w)) (clock (S (ticks w)))
      (oid_source (oids w)) in
  ∃ (w1 : World) (t1 : Token),
    POST_register body w = (w1, inr (HTTP_201_CREATED, t1)) ∧
    users w1 = (users w ++ [record])%list.
Proof.
  intros Hv Hno Hfree record. unfold POST_register. rewrite Hv.
  unfold bind. rewrite register_eq.
  assert (List.find (matches {["email" := VStr (UserRegister.email ud)]})
            (users w) = None) as ->.
  { apply find_None_free. intros d Hd He. apply Hno. by exists d. }
  assert (existsb (matches {["_id" := VOid (oid_source (oids w))]})
            (users w) = false) as ->.
  { by apply existsb_false_free. }
  by eexists _, _.
Qed.

Lemma login_registered (uc : UserLogin.t) (w : World) (us rest : list Dict)
    (salt : Salt) (n : option string) (created updated : DateTime)
    (o : ObjectId) :
  let record := user_record (UserLogin.email uc)
                  (bcrypt_hash salt (UserLogin.password uc))
                  n created updated o in
  ¬ email_taken (UserLogin.email uc) us →
  users w = (us ++ record :: rest)%list →
  ∃ (w2 : World) (t2 : Token) (claims : Dict),
    login uc w = (w2, inr t2) ∧
    jwt_decode (access_token t2) = inr claims ∧
    claims !! "sub" = Some (VStr (ObjectId_str o)).
Proof.
  intros record Hno Hus. rewrite login_eq, Hus.
  assert (List.find (matches {["email" := VStr (UserLogin.email uc)]})
            (us ++ record :: rest) = Some record) as ->.
  { rewrite find_app_None.
    - simpl. rewrite matches_singleton, bool_decide_eq_true_2; [done|].
      unfold record, user_record. by simplify_map_eq.
    - apply find_None_free. intros d Hd He. apply Hno. by exists d. }
  assert (record !! "password"
          = Some (VStr (bcrypt_hash salt (UserLogin.password uc)))) as ->.
  { unfold record, user_record. by simplify_map_eq. }
  rewrite bcrypt_verify_hash.
  assert (record !! "_id" = Some (VOid o)) as ->.
  { unfold record, user_record. by simplify_map_eq. }
  eexists _, _, _. split; [reflexivity|]. cbn [access_token].
  split; [apply jwt_decode_encode|]. apply token_claims_lookup.
Qed.

(** C1: a registration whose body is valid (an email the validator accepts,
    a password of at least 6 characters) for an email no user has succeeds
    with 201 and stores a record under the generated id; any later login
    with the same email and password, whatever requests were served in
    between, succeeds with 200 and returns a token whose subject claim is
    that id. The generated id is assumed not to be in use, as the driver
    guarantees. *)
Theorem register_then_login (body : Dict) (e e' p : string) (w : World) :
  body !! "email" = Some (VStr e) →
  validate_email e = Some e' →
  body !! "password" = Some (VStr p) →
  (6 ≤ String.length p)%nat →
  is_Some (validate_name (body !! "name")) →
  ¬ email_taken e' (users w) →
  oid_free (oid_source (oids w)) (users w) →
  ∃ (w1 : World) (t1 : Token) (record : Dict),
    POST_register body w = (w1, inr (HTTP_201_CREATED, t1)) ∧
    users w1 = (users w ++ [record])%list ∧
    record !! "_id" = Some (VOid (oid_source (oids w))) ∧
    ∀ (rs : list Request) (body' : Dict),
      body' !! "email" = Some (VStr e) →
      body' !! "password" = Some (VStr p) →
      ∃ (w2 : World) (t2 : Token) (claims : Dict),
        POST_login body' (serve_all rs w1) = (w2, inr (HTTP_200_OK, t2)) ∧
        jwt_decode (access_token t2) = inr claims ∧
        claims !! "sub" = Some (VStr (ObjectId_str (oid_source (oids w)))).
Proof.
  intros He Hv Hp Hlen [n Hn] Hno Hfree.
  assert (UserRegister_validate body = Some (UserRegister.mk e' p n)) as Hud.
  { unfold UserRegister_validate. rewrite He, Hp, Hn, Hv.
    unfold min_length_password.
    by destruct (Nat.leb_spec 6 (String.length p)); [|lia]. }
  destruct (POST_register_ok body _ w Hud Hno Hfree) as (w1 & t1 & Hreg & Hus).
  exists w1, t1. eexists. split; [done|]. split; [done|].
  split; [apply lookup_insert_eq|].
  intros rs body' He' Hp'.
  assert (UserLogin_validate body' = Some (UserLogin.mk e' p)) as Huc.
  { unfold UserLogin_validate. by rewrite He', Hp', Hv. }
  destruct (serve_all_prefix rs w1) as [rest Hrest].
  rewrite Hus, <- app_assoc in Hrest. simpl in Hrest.
  destruct (login_registered (UserLogin.mk e' p) (serve_all rs w1)
              (users w) rest (salt_source (draws w)) n
              (clock (ticks w)) (clock (S (ticks w)))
              (oid_source (oids w)) Hno Hrest)
    as (w2 & t2 & claims & Hlog & Hdec & Hsub).
  exists w2, t2, claims. split; [|done].
  unfold POST_login. rewrite Huc. unfold bind. by rewrite Hlog.
Qed.

End Properties.

(** * Further properties of the accessors and handlers *)

Section Further.

Context {E : Env}.

(** ** The connection handle *)

Lemma calls_connected (dep : Connection.Deployment) (n : nat)
    (g : Connection.Globals) (d : Connection.Database) :
  Connection.db g = Some d →
  Connection.calls dep n g = (g, replicate n (inr d)).
Proof.
  intros Hd. induction n as [|n IH]; [done|].
  simpl. unfold Connection.get_database. by rewrite Hd, IH.
Qed.

(** X1: when the connection string names a database, any number of calls of
    [get_database] after import constructs exactly one client, with TLS on
    and invalid certificates and host names refused, and every call returns
    the same database of that client. *)
Theorem get_database_connects_once (dep : Connection.Deployment)
    (name : string) (n : nat) :
  Connection.parse_uri dep = Connection.GoodUri (Some name) →
  let c := Connection.mkClient 0 (Connection.DATABASE_URL dep)
             (Connection.mkOptions true (Connection.certifi_where dep)
                false false 30000 20000 20000) in
  let d := Connection.mkDatabase c name in
  Connection.calls dep (S n) Connection.at_import
  = (Connection.mkGlobals (Some c) (Some d) 1, replicate (S n) (inr d)).
Proof.
  intros Hu c d. cbn [Connection.calls].
  unfold Connection.get_database at 1. cbn [Connection.db Connection.at_import].
  rewrite Hu. cbn [Connection.constructed]. fold c. fold d.
  by rewrite (calls_connected dep n _ d).
Qed.

(** X2: when the connection string names no database, every call of
    [get_database] raises a ConfigurationError after it has constructed and
    kept a new client: [n] calls construct [n] clients, the last of which
    stays in [client], and [db] stays unset. *)
Theorem get_database_unnamed (dep : Connection.Deployment) (n : nat)
    (g : Connection.Globals) :
  Connection.parse_uri dep = Connection.GoodUri None →
  Connection.db g = None →
  Connection.calls dep (S n) g
  = (Connection.mkGlobals
       (Some (Connection.mkClient (Connection.constructed g + n)
                (Connection.DATABASE_URL dep)
                (Connection.mkOptions true (Connection.certifi_where dep)
                   false false 30000 20000 20000)))
       None (Connection.constructed g + S n),
     replicate (S n) (inl Connection.ConfigurationError)).
Proof.
  intros Hu. revert g. induction n as [|n IH]; intros g Hd.
  - cbn [Connection.calls]. unfold Connection.get_database.
    rewrite Hd, Hu. rewrite Nat.add_0_r, Nat.add_1_r. reflexivity.
  - remember (S n) as m eqn:Hm. cbn [Connection.calls].
    unfold Connection.get_database at 1. rewrite Hd, Hu.
    set (g1 := Connection.mkGlobals _ _ _).
    subst m. rewrite (IH g1 eq_refl). subst g1. cbn [Connection.constructed].
    replace (S (Connection.constructed g) + n)%nat
      with (Connection.constructed g + S n)%nat by lia.
    replace (S (Connection.constructed g) + S n)%nat
      with (Connection.constructed g + S (S n))%nat by lia.
    reflexivity.
Qed.

(** ** Insert and lookup *)

Lemma find_in_extension (q : Dict) (us rest : list Dict) (doc : Dict) :
  List.find (matches q) us = None → matches q doc = true →
  List.find (matches q) (us ++ doc :: rest) = Some doc.
Proof.
  intros Hn Hm. rewrite find_app_None by done. simpl. by rewrite Hm.
Qed.

Lemma create_user_ok (e h : string) (n : option string) (w w1 : World)
    (doc : Dict) :
  create_user e h n w = (w1, inr doc) →
  doc = user_record e h n (clock (ticks w)) (clock (S (ticks w)))
          (oid_source (oids w)) ∧
  users w1 = (users w ++ [doc])%list ∧
  oid_free (oid_source (oids w)) (users w).
Proof.
  rewrite create_user_eq.
  destruct (existsb _ (users w)) eqn:Hex; [discriminate|].
  intros [= <- <-]. split; [done|]. split; [done|].
  by apply existsb_false_oid_free.
Qed.

Lemma find_by_id_later (rs : list Request) (w1 : World) (us : list Dict)
    (doc : Dict) (o : ObjectId) :
  users w1 = (us ++ [doc])%list → oid_free o us →
  doc !! "_id" = Some (VOid o) →
  List.find (matches {["_id" := VOid o]}) (users (serve_all rs w1))
  = Some doc.
Proof.
  intros Hus Hfree Hid.
  destruct (serve_all_prefix rs w1) as [rest ->].
  rewrite Hus, <- app_assoc. simpl. apply find_in_extension.
  - by apply find_None_free.
  - by apply matches_singleton_true.
Qed.

(** X3: a document [create_user] has stored is found again by
    [get_user_by_id] under the hexadecimal form of its id, and under the id
    itself, right away and after any further requests: the record returned
    is the one appended to the collection, and it has the id, email,
    password digest, name and provider of the document [create_user]
    returned. *)
Theorem create_user_then_get_by_id (e h : string) (n : option string)
    (w w1 : World) (doc : Dict) (rs : list Request) :
  create_user e h n w = (w1, inr doc) →
  (oid_source (oids w) < 2 ^ 96)%N →
  let o := oid_source (oids w) in
  ∃ user : Dict,
    last (users w1) = Some user ∧
    (get_user_by_id (VStr (ObjectId_str o)) (serve_all rs w1)).2
    = inr (Some user) ∧
    (get_user_by_id (VOid o) (serve_all rs w1)).2 = inr (Some user) ∧
    user !! "_id" = Some (VOid o) ∧
    doc !! "_id" = Some (VOid o) ∧
    user !! "email" = Some (VStr e) ∧
    user !! "password" = Some (VStr h) ∧
    user !! "name" = Some (of_opt_str n) ∧
    user !! "provider" = Some (VStr "email") ∧
    (∀ k : string,
       k ∈ ["_id"; "email"; "password"; "name"; "provider"] →
       user !! k = doc !! k).
Proof.
  intros Hc Ho o. apply create_user_ok in Hc as (Hdoc & Hus & Hfree).
  assert (doc !! "_id" = Some (VOid o)) as Hid.
  { rewrite Hdoc. apply lookup_insert_eq. }
  pose proof (find_by_id_later rs w1 _ doc o Hus Hfree Hid) as Hf.
  exists doc. split; [rewrite Hus; apply last_snoc|].
  rewrite !get_user_by_id_eq.
  rewrite ObjectId_of_str_str by done. cbn [snd]. rewrite Hf.
  split; [done|]. split; [done|]. split; [done|]. split; [done|].
  rewrite Hdoc. unfold user_record.
  repeat split; by simplify_map_eq.
Qed.

(** X4: [create_user] does not itself check the email: called with an
    email some record already has, it stores a second record with that
    email, after which emails are no longer unique and [get_user_by_email]
    still returns the older record. *)
Theorem create_user_keeps_no_uniqueness (e h : string) (n : option string)
    (w : World) (old : Dict) :
  (get_user_by_email e w).2 = inr (Some old) →
  oid_free (oid_source (oids w)) (users w) →
  ∃ (w1 : World) (doc : Dict),
    create_user e h n w = (w1, inr doc) ∧
    users w1 = (users w ++ [doc])%list ∧
    doc !! "email" = Some (VStr e) ∧
    ¬ email_unique (users w1) ∧
    (get_user_by_email e w1).2 = inr (Some old).
Proof.
  intros Hold Hfree. rewrite get_user_by_email_eq in Hold.
  cbn [snd] in Hold. injection Hold as Hold.
  rewrite create_user_eq.
  rewrite (proj2 (existsb_false_free "_id" _ (users w)) Hfree).
  eexists _, _. split; [reflexivity|]. cbn [users set_users].
  split; [done|].
  assert (user_record e h n (clock (ticks w)) (clock (S (ticks w)))
            (oid_source (oids w)) !! "email" = Some (VStr e)) as Hem.
  { unfold user_record. by simplify_map_eq. }
  split; [done|]. split.
  - intros Hu. apply find_truthy in Hold as (Hin & He & _).
    apply list_elem_of_lookup_1 in Hin as [i Hi].
    assert (i = length (users w)) as Hil.
    { eapply (Hu i (length (users w))); [| |exact He|exact Hem].
      - by apply lookup_app_l_Some.
      - by rewrite lookup_app_r, Nat.sub_diag. }
    apply lookup_lt_Some in Hi. lia.
  - rewrite get_user_by_email_eq. cbn [snd users set_users].
    by rewrite (find_app_Some _ _ _ _ Hold).
Qed.

(** ** Registration and what follows *)

Lemma register_ok (ud : UserRegister.t) (w w1 : World) (tok : Token) :
  register ud w = (w1, inr tok) →
  let doc := user_record (UserRegister.email ud)
    (bcrypt_hash (salt_source (draws w)) (UserRegister.password ud))
    (UserRegister.name ud) (clock (ticks w)) (clock (S (ticks w)))
    (oid_source (oids w)) in
  users w1 = (users w ++ [doc])%list ∧
  oid_free (oid_source (oids w)) (users w) ∧
  ¬ email_taken (UserRegister.email ud) (users w).
Proof.
  rewrite register_eq.
  destruct (List.find _ (users w)) eqn:Hf; [discriminate|].
  destruct (existsb _ (users w)) eqn:Hex; [discriminate|].
  intros [= <- _]. split; [done|].
  split; [by apply existsb_false_oid_free | by apply find_None_not_taken].
Qed.

(** X5: after a successful registration, the current-user operation on
    claims whose subject is the hexadecimal form of the new id answers,
    right away and after any further requests, with that id, the registered
    email, the registered name ([None] when none was given) and the
    creation time the stored record holds. *)
Theorem register_then_get_me (ud : UserRegister.t) (w w1 : World)
    (tok : Token) (rs : list Request) (cu : Dict) :
  register ud w = (w1, inr tok) →
  (oid_source (oids w) < 2 ^ 96)%N →
  cu !! "sub" = Some (VStr (ObjectId_str (oid_source (oids w)))) →
  ∃ (record : Dict) (created : PyVal),
    last (users w1) = Some record ∧
    record !! "createdAt" = Some created ∧
    (get_me cu (serve_all rs w1)).2
    = inr (public_projection (VOid (oid_source (oids w)))
             (VStr (UserRegister.email ud))
             (of_opt_str (UserRegister.name ud))
             created).
Proof.
  intros Hreg Ho Hsub. apply register_ok in Hreg as (Hus & Hfree & _).
  set (doc := user_record _ _ _ _ _ _) in Hus.
  assert (doc !! "_id" = Some (VOid (oid_source (oids w)))) as Hid
    by apply lookup_insert_eq.
  pose proof (find_by_id_later rs w1 _ doc _ Hus Hfree Hid) as Hf.
  exists doc, (VDate (clock (ticks w))).
  split; [rewrite Hus; apply last_snoc|].
  split; [unfold doc, user_record; by simplify_map_eq|].
  rewrite get_me_eq, get_user_by_id_eq. unfold dict_get at 1. rewrite Hsub.
  cbv beta iota delta [from_option id].
  rewrite ObjectId_of_str_str by done. rewrite Hf.
  apply find_truthy in Hf as (_ & _ & Ht). cbn [snd]. unfold answer_me.
  rewrite Ht, Hid. unfold dict_get, doc, user_record.
  by simplify_map_eq.
Qed.

(** X6: once an email has been registered, every later registration with
    that email is refused with EmailAlreadyRegistered and leaves the
    collection as it is, whatever requests were served in between. *)
Theorem second_registration_refused (ud ud' : UserRegister.t) (w w1 : World)
    (tok : Token) (rs : list Request) :
  register ud w = (w1, inr tok) →
  UserRegister.email ud' = UserRegister.email ud →
  ∃ w2 : World,
    register ud' (serve_all rs w1) = (w2, inl EmailAlreadyRegistered) ∧
    users w2 = users (serve_all rs w1).
Proof.
  intros Hreg He. apply register_ok in Hreg as (Hus & _ & _).
  set (doc := user_record _ _ _ _ _ _) in Hus.
  destruct (serve_all_prefix rs w1) as [rest Hrest].
  rewrite register_eq, He.
  destruct (List.find _ (users (serve_all rs w1))) eqn:Hf; [by eexists|].
  exfalso. apply (proj1 (find_None_free _ _ _) Hf doc).
  - rewrite Hrest, Hus. set_solver.
  - unfold doc, user_record. by simplify_map_eq.
Qed.

(** X7: stored records are never replaced: a lookup by email, or by the
    string form of an id, that finds a record finds the same record after
    any further requests. *)
Theorem lookups_are_stable (w : World) (rs : list Request) (user : Dict) :
  (∀ e : string,
     (get_user_by_email e w).2 = inr (Some user) →
     (get_user_by_email e (serve_all rs w)).2 = inr (Some user)) ∧
  (∀ s : string,
     (get_user_by_id (VStr s) w).2 = inr (Some user) →
     (get_user_by_id (VStr s) (serve_all rs w)).2 = inr (Some user)).
Proof.
  destruct (serve_all_prefix rs w) as [rest Hrest]. split.
  - intros e. rewrite !get_user_by_email_eq. cbn [snd]. intros [= Hf].
    by rewrite Hrest, (find_app_Some _ _ _ _ Hf).
  - intros s. rewrite !get_user_by_id_eq.
    destruct (ObjectId_of_str s) as [o|]; [|discriminate].
    cbn [snd]. intros [= Hf].
    by rewrite Hrest, (find_app_Some _ _ _ _ Hf).
Qed.

(** ** Login *)

(** X8: Login returns a token only when a user with the email exists and
    the given password verifies against the digest stored in that user's
    record; it then leaves the collection as it is. *)
Theorem login_requires_verified_password (uc : UserLogin.t) (w w' : World)
    (tok : Token) :
  login uc w = (w', inr tok) →
  ∃ (user : Dict) (stored : PyVal),
    (get_user_by_email (UserLogin.email uc) w).2 = inr (Some user) ∧
    user !! "password" = Some stored ∧
    verify_password (UserLogin.password uc) stored = true ∧
    token_type tok = "bearer" ∧
    users w' = users w.
Proof.
  intros Hlog. pose proof (login_users uc w) as Hus.
  rewrite Hlog in Hus. rewrite login_eq in Hlog.
  rewrite get_user_by_email_eq. cbn [snd].
  destruct (List.find _ (users w)) as [user|]; [|discriminate].
  destruct (user !! "password") as [stored|] eqn:Hp; [|discriminate].
  destruct (bcrypt_verify _ stored) eqn:Hv; [|discriminate].
  destruct (user !! "_id"); [|discriminate].
  injection Hlog as _ <-. by exists user, stored.
Qed.

(** X9: when the record found for the email has no [password] entry, Login
    ends in a KeyError, an internal error for the client, and not in
    InvalidCredentials; no token is issued. *)
Theorem login_record_without_password (uc : UserLogin.t) (w : World)
    (user : Dict) :
  (get_user_by_email (UserLogin.email uc) w).2 = inr (Some user) →
  user !! "password" = None →
  (login uc w).2 = inl (KeyError "password") ∧
  status_of (KeyError "password") = 500.
Proof.
  rewrite get_user_by_email_eq. cbn [snd]. intros [= Hf] Hp.
  by rewrite login_eq, Hf, Hp.
Qed.

(** ** The current user *)

(** X10: for a record the lookup finds, a missing [name] is answered as
    [None], while a missing [email] or [createdAt] ends in a KeyError, an
    internal error for the client, and not in UserNotFound. *)
Theorem get_me_missing_fields (cu : Dict) (w w' : World) (user : Dict) :
  get_user_by_id (dict_get cu "sub") w = (w', inr (Some user)) →
  (∀ uid uemail ucreated : PyVal,
     user !! "_id" = Some uid → user !! "email" = Some uemail →
     user !! "createdAt" = Some ucreated → user !! "name" = None →
     get_me cu w = (w', inr (public_projection uid uemail VNone ucreated))) ∧
  (user !! "email" = None → get_me cu w = (w', inl (KeyError "email"))) ∧
  (is_Some (user !! "email") → user !! "createdAt" = None →
   get_me cu w = (w', inl (KeyError "createdAt"))) ∧
  status_of (KeyError "email") = 500 ∧
  status_of (KeyError "createdAt") = 500.
Proof.
  intros Hid. rewrite get_me_eq, Hid.
  apply get_user_by_id_found in Hid as (o & _ & _ & Hf).
  apply find_truthy in Hf as (_ & Ho & Ht). unfold answer_me. rewrite Ht, Ho.
  repeat split.
  - intros uid uemail ucreated [= <-] -> -> Hn. unfold dict_get.
    by rewrite Hn.
  - by intros ->.
  - by intros [uemail ->] ->.
Qed.



(** X12: claims without a subject make the current-user operation look up
    an ObjectId it generates for the occasion; when no record has that id
    the operation fails with UserNotFound, after one read, and the id is
    used up. *)
Theorem get_me_without_subject (cu : Dict) (w : World) :
  cu !! "sub" = None →
  oid_free (oid_source (oids w)) (users w) →
  ∃ w' : World,
    get_me cu w = (w', inl UserNotFound) ∧
    oids w' = S (oids w) ∧
    reads w' = S (reads w) ∧
    users w' = users w.
Proof.
  intros Hsub Hfree. rewrite get_me_eq, get_user_by_id_eq.
  unfold dict_get. rewrite Hsub. cbv beta iota delta [from_option id].
  cbn [users next_oid].
  rewrite (proj2 (find_None_free "_id" _ (users w)) Hfree).
  eexists. split; [reflexivity|]. rewrite reads_record_op.
  repeat split. unfold reads. simpl. lia.
Qed.

(** ** How the handlers end, and what they use up *)

Lemma login_outcomes (uc : UserLogin.t) (w : World) :
  (∃ tok, (login uc w).2 = inr tok ∧ token_type tok = "bearer") ∨
  (login uc w).2 = inl InvalidCredentials ∨
  (login uc w).2 = inl (KeyError "password") ∨
  (login uc w).2 = inl (KeyError "_id").
Proof.
  rewrite login_eq.
  destruct (List.find _ (users w)) as [user|]; [|by right; left].
  destruct (user !! "password") as [stored|]; [|by right; right; left].
  destruct (bcrypt_verify _ stored); [|by right; left].
  destruct (user !! "_id"); [|by right; right; right].
  left. by eexists.
Qed.

Lemma bind_result {A B} (m : M A) (f : A → B) (w : World) :
  (bind m (λ a, ret (f a)) w).2
  = match (m w).2 with
    | inl e => inl e
    | inr a => inr (f a)
    end.
Proof. unfold bind, ret. by destruct (m w) as [w' [e|a]]. Qed.

(** X15: a request that is refused uses up nothing: a registration refused
    for a taken email, and a login that fails for whatever reason, draw no
    salt, read no clock, generate no id and leave the collection as it is;
    all they leave is the one read in the journal. *)
Theorem refusals_use_nothing (w : World) :
  (∀ ud : UserRegister.t,
     (register ud w).2 = inl EmailAlreadyRegistered →
     (register ud w).1
     = record_op (FindOne {["email" := VStr (UserRegister.email ud)]}) w) ∧
  (∀ (uc : UserLogin.t) (e : Exc),
     (login uc w).2 = inl e →
     (login uc w).1
     = record_op (FindOne {["email" := VStr (UserLogin.email uc)]}) w) ∧
  (∀ o : StoreOp,
     users (record_op o w) = users w ∧ oids (record_op o w) = oids w ∧
     ticks (record_op o w) = ticks w ∧ draws (record_op o w) = draws w).
Proof.
  split; [|split].
  - intros ud. rewrite register_eq.
    destruct (List.find _ (users w)); [done|].
    destruct (existsb _ (users w)); discriminate.
  - intros uc e. rewrite login_eq. repeat (case_match; try done).
  - done.
Qed.

(** X16: Login applies no minimum length: a body with an email the
    validator accepts and any password string, the empty one included, is
    passed to the handler, which performs its store read; the answer is
    never a validation error. *)
Theorem login_has_no_minimum_length (body : Dict) (e e' p : string)
    (w : World) :
  body !! "email" = Some (VStr e) →
  validate_email e = Some e' →
  body !! "password" = Some (VStr p) →
  reads (POST_login body w).1 = S (reads w) ∧
  (POST_login body w).2 ≠ inl RequestValidationError.
Proof.
  intros He Hv Hp.
  assert (UserLogin_validate body = Some (UserLogin.mk e' p)) as Huc.
  { unfold UserLogin_validate. by rewrite He, Hp, Hv. }
  unfold POST_login. rewrite Huc. split.
  - rewrite bind_world.
    pose proof (login_journal (UserLogin.mk e' p) w) as Hj.
    apply journal_snoc_counts in Hj as [Hr _].
    destruct (login (UserLogin.mk e' p) w) as [w' [x|t]];
      simpl in *; lia.
  - rewrite bind_result.
    destruct (login_outcomes (UserLogin.mk e' p) w)
      as [(tok & -> & _) | [-> | [-> | ->] ] ]; discriminate.
Qed.

End Further.




(** * The routes on concrete requests *)

Section Scenario.

Local Existing Instance Demo.env.

Lemma demo_verify_hash (salt : Demo.Salt) (p : string) :
  Demo.bcrypt_verify p (VStr (Demo.bcrypt_hash salt p)) = true.
Proof. unfold Demo.bcrypt_verify, Demo.bcrypt_hash. by case_bool_decide. Qed.

Lemma demo_decode_encode (claims : Dict) :
  Demo.jwt_decode (Demo.jwt_encode claims) = inr claims.
Proof. reflexivity. Qed.

Lemma demo_register_a :
  register Demo.user_a Demo.empty_world = (Demo.world_a, inr Demo.token_a).
Proof. reflexivity. Qed.

Lemma demo_users_a : users Demo.world_a = [Demo.record_a].
Proof. reflexivity. Qed.

Lemma demo_login_a : login Demo.login_a Demo.world_a = (Demo.world_b, inr Demo.token_b).
Proof. reflexivity. Qed.

Lemma demo_identify_a :
  get_current_user (access_token Demo.token_a) Demo.world_b
  = (next_tick Demo.world_b, inr Demo.claims_a).
Proof. reflexivity. Qed.

Lemma demo_me_a :
  (GET_me (access_token Demo.token_a) Demo.world_b).2
  = inr (HTTP_200_OK,
         public_projection (VOid 1000%N) (VStr "a@x.com") VNone
           (VDate 1700000000)).
Proof. reflexivity. Qed.

Lemma demo_blank_id :
  ObjectId_of_str Demo.blank_id = Some (2 ^ 96 + 2 ^ 88 + 1000)%N ∧
  get_user_by_id (E := Demo.env) (VStr Demo.blank_id) Demo.world_a
  = (record_op (FindOne {["_id" := VOid (2 ^ 96 + 2 ^ 88 + 1000)%N]})
       Demo.world_a, inr None) ∧
  ObjectId_of_str "not-an-object-id" = None ∧
  ObjectId_of_str "0000000000000000000003E8" = Some 1000%N.
Proof. repeat split; reflexivity. Qed.

Lemma demo_login_wrong : (login Demo.login_wrong Demo.world_a).2 = inl InvalidCredentials.
Proof. reflexivity. Qed.

(** ** The properties at these requests *)

Lemma register_then_login_witness :
  ∃ (w1 : World) (t1 : Token) (record : Dict),
    POST_register Demo.body_a Demo.empty_world = (w1, inr (HTTP_201_CREATED, t1)) ∧
    users w1 = (users Demo.empty_world ++ [record])%list ∧
    record !! "_id" = Some (VOid (oid_source (oids Demo.empty_world))) ∧
    ∀ (rs : list Request) (body' : Dict),
      body' !! "email" = Some (VStr "a@x.com") →
      body' !! "password" = Some (VStr "secret1") →
      ∃ (w2 : World) (t2 : Token) (claims : Dict),
        POST_login body' (serve_all rs w1) = (w2, inr (HTTP_200_OK, t2)) ∧
        jwt_decode (access_token t2) = inr claims ∧
        claims !! "sub"
        = Some (VStr (ObjectId_str (oid_source (oids Demo.empty_world)))).
Proof.
  apply (register_then_login (E := Demo.env) demo_verify_hash
           demo_decode_encode Demo.body_a "a@x.com" "a@x.com" "secret1"
           Demo.empty_world).
  - reflexivity.
  - reflexivity.
  - reflexivity.
  - simpl. lia.
  - exists None. reflexivity.
  - apply find_None_not_taken. reflexivity.
  - apply existsb_false_oid_free. reflexivity.
Defined.

Lemma verify_token_skips_lookup :
  get_current_user (E := Demo.env) Demo.claims_ghost Demo.world_a
  = (next_tick Demo.world_a, inr Demo.claims_ghost) ∧
  ObjectId_of_str "0000000000000000000003e7" = Some 999%N ∧
  oid_free 999%N (users Demo.world_a) ∧
  (POST_verify (E := Demo.env) Demo.claims_ghost Demo.world_a).2
  = inr (HTTP_200_OK,
         <["valid" := VBool true]>
         (<["user_id" := VStr "0000000000000000000003e7"]>
         (<["email" := VStr "g@x.com"]> ∅))) ∧
  (POST_verify (E := Demo.env) Demo.claims_ghost Demo.world_a).2 ≠ inl UserNotFound.
Proof.
  split; [reflexivity|]. split; [reflexivity|].
  split; [apply existsb_false_oid_free; reflexivity|].
  assert ((POST_verify (E := Demo.env) Demo.claims_ghost Demo.world_a).2
          = inr (HTTP_200_OK,
                 <["valid" := VBool true]>
                 (<["user_id" := VStr "0000000000000000000003e7"]>
                 (<["email" := VStr "g@x.com"]> ∅)))) as Hv by reflexivity.
  split; [exact Hv|]. rewrite Hv. discriminate.
Qed.

Lemma absent_subject_witness :
  (∃ w', GET_me (E := Demo.env) Demo.claims_ghost Demo.world_a
         = (w', inl UserNotFound)) ∧
  status_of UserNotFound = 404 ∧
  POST_verify (E := Demo.env) Demo.claims_ghost Demo.world_a =
    (next_tick Demo.world_a,
     inr (HTTP_200_OK,
          <["valid" := VBool true]>
          (<["user_id" := dict_get Demo.claims_ghost "sub"]>
          (<["email" := dict_get Demo.claims_ghost "email"]> ∅)))) ∧
  journal (next_tick Demo.world_a) = journal Demo.world_a.
Proof.
  apply (absent_subject (E := Demo.env) Demo.claims_ghost Demo.world_a
           (next_tick Demo.world_a) Demo.claims_ghost).
  - reflexivity.
  - intros w1 o Hnew.
    assert (ObjectId_new (E := Demo.env) (dict_get Demo.claims_ghost "sub")
              (next_tick Demo.world_a) = (next_tick Demo.world_a, inr 999%N)) as Hc
      by reflexivity.
    rewrite Hc in Hnew. injection Hnew as _ <-.
    apply existsb_false_oid_free. reflexivity.
Defined.

Lemma login_failures_identical_witness :
  (login (E := Demo.env) Demo.login_nobody Demo.world_a).2 = inl InvalidCredentials ∧
  (login (E := Demo.env) Demo.login_wrong Demo.world_a).2 = inl InvalidCredentials ∧
  (login (E := Demo.env) Demo.login_nobody Demo.world_a).2
  = (login (E := Demo.env) Demo.login_wrong Demo.world_a).2 ∧
  status_of InvalidCredentials = 401.
Proof.
  apply (login_failures_identical (E := Demo.env) Demo.world_a Demo.login_nobody
           Demo.login_wrong Demo.record_a (VStr "$demo$secret1")).
  - apply find_None_not_taken. reflexivity.
  - reflexivity.
  - reflexivity.
  - reflexivity.
Defined.

Lemma login_without_digest_differs :
  ¬ email_taken "nobody@x.com" (users Demo.world_legacy) ∧
  email_taken "old@x.com" (users Demo.world_legacy) ∧
  (login (E := Demo.env) Demo.login_nobody Demo.world_legacy).2
  = inl InvalidCredentials ∧
  (login (E := Demo.env) Demo.login_legacy Demo.world_legacy).2
  = inl (KeyError "password") ∧
  (login (E := Demo.env) Demo.login_nobody Demo.world_legacy).2
  ≠ (login (E := Demo.env) Demo.login_legacy Demo.world_legacy).2 ∧
  status_of (KeyError "password") ≠ status_of InvalidCredentials.
Proof.
  assert ((login (E := Demo.env) Demo.login_nobody Demo.world_legacy).2
          = inl InvalidCredentials) as H1 by reflexivity.
  assert ((login (E := Demo.env) Demo.login_legacy Demo.world_legacy).2
          = inl (KeyError "password")) as H2 by reflexivity.
  split; [apply find_None_not_taken; reflexivity|].
  split.
  { exists Demo.record_legacy. split; [left | reflexivity]. }
  split; [exact H1|]. split; [exact H2|].
  split; [rewrite H1, H2; discriminate | discriminate].
Qed.

Lemma email_uniqueness_invariant_witness :
  email_unique
    (users (serve_all (E := Demo.env)
              [ReqRegister Demo.body_a; ReqLogin Demo.body_a; ReqMe Demo.claims_a] Demo.world_a)) ∧
  ∃ w', register (E := Demo.env) Demo.user_a Demo.world_a
        = (w', inl EmailAlreadyRegistered) ∧
        status_of EmailAlreadyRegistered = 400 ∧
        users w' = users Demo.world_a ∧
        writes w' = writes Demo.world_a.
Proof.
  destruct (email_uniqueness_invariant (E := Demo.env) Demo.world_a) as [Hinv Hdup].
  split.
  - apply Hinv. change (users Demo.world_a) with [Demo.record_a].
    apply email_unique_singleton.
  - apply Hdup. exists Demo.record_a. split; [|reflexivity].
    change (users Demo.world_a) with [Demo.record_a]. left.
Defined.

Lemma current_user_projection_witness :
  (∃ (user : Dict) (uid uemail ucreated : PyVal),
     user ∈ users Demo.world_a ∧
     user !! "_id" = Some uid ∧
     user !! "email" = Some uemail ∧
     user !! "createdAt" = Some ucreated ∧
     public_projection (E := Demo.env) (VOid 1000%N) (VStr "a@x.com") VNone
       (VDate 1700000000)
     = public_projection uid uemail (dict_get user "name") ucreated ∧
     dom (public_projection (E := Demo.env) (VOid 1000%N) (VStr "a@x.com")
            VNone (VDate 1700000000))
     = ({["id"; "email"; "name"; "createdAt"]} : gset string) ∧
     public_projection (E := Demo.env) (VOid 1000%N) (VStr "a@x.com") VNone
       (VDate 1700000000) !! "password" = None) ∧
  (get_me (E := Demo.env) Demo.claims_a Demo.world_a).2
  = (get_me (E := Demo.env) Demo.claims_a Demo.world_a').2 ∧
  (∃ w', get_me (E := Demo.env) Demo.claims_a Demo.world_a =
         (w', inr (public_projection (VOid 1000%N) (VStr "a@x.com")
                     (dict_get Demo.record_a "name") (VDate 1700000000)))).
Proof.
  destruct (current_user_projection (E := Demo.env) Demo.world_a Demo.claims_a)
    as (Hproj & Hsame & Hfound).
  split; [|split].
  - apply (Hproj (get_me (E := Demo.env) Demo.claims_a Demo.world_a).1). reflexivity.
  - apply Hsame; reflexivity.
  - apply (Hfound 1000%N Demo.record_a); reflexivity.
Defined.

Lemma record_has_no_passwordHash :
  register (E := Demo.env) Demo.user_a Demo.empty_world = (Demo.world_a, inr Demo.token_a) ∧
  users Demo.world_a = [Demo.record_a] ∧
  Demo.record_a !! "password" = Some (VStr "$demo$secret1") ∧
  Demo.record_a !! "passwordHash" = None ∧
  Demo.record_a !! "passwordHash" ≠ Some (VStr "$demo$secret1").
Proof.
  split; [reflexivity|]. split; [reflexivity|]. split; [reflexivity|].
  assert (Demo.record_a !! "passwordHash" = None) as Hn by reflexivity.
  split; [exact Hn|]. rewrite Hn. discriminate.
Qed.

Lemma registered_record_witness :
  ∃ record : Dict,
    users Demo.world_a = (users Demo.empty_world ++ [record])%list ∧
    record = user_record "a@x.com" "$demo$secret1" None
               1700000000 1700000001 1000%N ∧
    record !! "password" = Some (VStr "$demo$secret1") ∧
    record !! "passwordHash" = None ∧
    record !! "provider" = Some (VStr "email") ∧
    record !! "createdAt" = Some (VDate 1700000000) ∧
    record !! "updatedAt" = Some (VDate 1700000001) ∧
    ("$demo$secret1" ≠ "secret1" →
     record !! "password" ≠ Some (VStr "secret1")).
Proof.
  apply (registered_record (E := Demo.env) Demo.user_a Demo.empty_world Demo.world_a Demo.token_a).
  reflexivity.
Defined.

Lemma issued_token_claims_witness :
  (∃ (w' : World) (tok : Token) (record : Dict) (issued : DateTime)
     (claims : Dict),
     register (E := Demo.env) Demo.user_a Demo.empty_world = (w', inr tok) ∧
     users w' = (users Demo.empty_world ++ [record])%list ∧
     record !! "_id" = Some (VOid (oid_source (oids Demo.empty_world))) ∧
     access_token tok = @jwt_encode Demo.env claims ∧
     @jwt_decode Demo.env (access_token tok) = inr claims ∧
     claims !! "sub"
     = Some (VStr (py_str (E := Demo.env)
                     (VOid (oid_source (oids Demo.empty_world))))) ∧
     claims !! "email" = Some (VStr "a@x.com") ∧
     claims !! "iat" = Some (VInt issued) ∧
     claims !! "exp" = Some (VInt (issued + timedelta_minutes 30))) ∧
  (∃ (w' : World) (tok : Token) (uemail : PyVal) (issued : DateTime)
     (claims : Dict),
     login (E := Demo.env) Demo.login_a Demo.world_a = (w', inr tok) ∧
     Demo.record_a !! "email" = Some uemail ∧
     access_token tok = @jwt_encode Demo.env claims ∧
     @jwt_decode Demo.env (access_token tok) = inr claims ∧
     claims !! "sub" = Some (VStr (py_str (E := Demo.env) (VOid 1000%N))) ∧
     claims !! "email" = Some uemail ∧
     claims !! "iat" = Some (VInt issued) ∧
     claims !! "exp" = Some (VInt (issued + timedelta_minutes 30))).
Proof.
  destruct (issued_token_claims (E := Demo.env) demo_decode_encode
              Demo.empty_world) as [Hreg _].
  destruct (issued_token_claims (E := Demo.env) demo_decode_encode
              Demo.world_a) as [_ Hlog].
  split.
  - apply (Hreg Demo.user_a).
    + apply find_None_not_taken. reflexivity.
    + apply existsb_false_oid_free. reflexivity.
  - apply (Hlog Demo.login_a Demo.record_a (VStr "$demo$secret1")
             (VOid 1000%N)); reflexivity.
Defined.

Lemma short_password_rejected_witness :
  POST_register (E := Demo.env) Demo.body_short Demo.world_a
  = (Demo.world_a, inl RequestValidationError) ∧
  users (POST_register (E := Demo.env) Demo.body_short Demo.world_a).1
  = users Demo.world_a ∧
  journal (POST_register (E := Demo.env) Demo.body_short Demo.world_a).1
  = journal Demo.world_a.
Proof.
  apply (short_password_rejected (E := Demo.env) Demo.body_short "abc" Demo.world_a).
  - reflexivity.
  - simpl. lia.
Defined.

Lemma register_taken_writes_nothing :
  email_taken "a@x.com" (users Demo.world_a) ∧
  writes (register (E := Demo.env) Demo.user_a Demo.world_a).1 = writes Demo.world_a ∧
  writes (register (E := Demo.env) Demo.user_a Demo.world_a).1 ≠ S (writes Demo.world_a).
Proof.
  split.
  { exists Demo.record_a. split; [|reflexivity].
    change (users Demo.world_a) with [Demo.record_a]. left. }
  assert (writes (register (E := Demo.env) Demo.user_a Demo.world_a).1 = 1%nat) as ->
    by reflexivity.
  assert (writes Demo.world_a = 1%nat) as -> by reflexivity.
  split; [reflexivity | lia].
Qed.

Lemma store_operations_witness :
  reads (register (E := Demo.env) Demo.user_a Demo.world_a).1 = S (reads Demo.world_a) ∧
  writes (register (E := Demo.env) Demo.user_a Demo.world_a).1 = writes Demo.world_a ∧
  writes (register (E := Demo.env) Demo.user_b Demo.world_a).1 = S (writes Demo.world_a) ∧
  reads (login (E := Demo.env) Demo.login_a Demo.world_a).1 = S (reads Demo.world_a) ∧
  writes (login (E := Demo.env) Demo.login_a Demo.world_a).1 = writes Demo.world_a ∧
  writes (GET_me (E := Demo.env) Demo.claims_a Demo.world_a).1 = writes Demo.world_a ∧
  writes (POST_verify (E := Demo.env) Demo.claims_a Demo.world_a).1 = writes Demo.world_a ∧
  users Demo.world_a `prefix_of`
    users (serve_all (E := Demo.env) [ReqRegister Demo.body_a; ReqLogin Demo.body_a] Demo.world_a).
Proof.
  destruct (store_operations (E := Demo.env) Demo.world_a)
    as (Hreg & Hlog & _ & Htok & Hpre).
  destruct (Hreg Demo.user_a) as (Hr & _ & Hw).
  destruct (Hreg Demo.user_b) as (_ & Hw' & _).
  destruct (Hlog Demo.login_a) as (Hlr & Hlw).
  destruct (Htok Demo.claims_a) as (Hm & Hv).
  split; [exact Hr|]. split.
  { apply Hw. exists Demo.record_a. split; [|reflexivity].
    change (users Demo.world_a) with [Demo.record_a]. left. }
  split; [apply Hw'; apply find_None_not_taken; reflexivity|].
  split; [exact Hlr|]. split; [exact Hlw|].
  split; [exact Hm|]. split; [exact Hv|]. apply Hpre.
Defined.



(** ** The further properties at these requests *)

Lemma get_database_connects_once_witness :
  Connection.calls Demo.deployment 3 Connection.at_import
  = (let c := Connection.mkClient 0
                (Connection.DATABASE_URL Demo.deployment)
                (Connection.mkOptions true "/etc/ssl/cacert.pem" false false
                   30000 20000 20000) in
     let d := Connection.mkDatabase c "stocks" in
     (Connection.mkGlobals (Some c) (Some d) 1, replicate 3 (inr d))).
Proof.
  apply (get_database_connects_once Demo.deployment "stocks" 2).
  reflexivity.
Defined.

Lemma get_database_unnamed_witness :
  Connection.calls Demo.deployment_unnamed 3 Connection.at_import
  = (Connection.mkGlobals
       (Some (Connection.mkClient 2
                (Connection.DATABASE_URL Demo.deployment_unnamed)
                (Connection.mkOptions true "/etc/ssl/cacert.pem" false false
                   30000 20000 20000)))
       None 3,
     replicate 3 (inl Connection.ConfigurationError)).
Proof.
  apply (get_database_unnamed Demo.deployment_unnamed 2 Connection.at_import);
    reflexivity.
Defined.

Lemma create_user_then_get_by_id_witness :
  ∃ user : Dict,
    last (users Demo.world_c) = Some user ∧
    (get_user_by_id (E := Demo.env) (VStr (ObjectId_str 1000%N))
       (serve_all (E := Demo.env) [ReqLogin Demo.body_a] Demo.world_c)).2
    = inr (Some user) ∧
    (get_user_by_id (E := Demo.env) (VOid 1000%N)
       (serve_all (E := Demo.env) [ReqLogin Demo.body_a] Demo.world_c)).2
    = inr (Some user) ∧
    user !! "_id" = Some (VOid 1000%N) ∧
    Demo.record_a !! "_id" = Some (VOid 1000%N) ∧
    user !! "email" = Some (VStr "a@x.com") ∧
    user !! "password" = Some (VStr "$demo$secret1") ∧
    user !! "name" = Some (of_opt_str None) ∧
    user !! "provider" = Some (VStr "email") ∧
    (∀ k : string,
       k ∈ ["_id"; "email"; "password"; "name"; "provider"] →
       user !! k = Demo.record_a !! k).
Proof.
  apply (create_user_then_get_by_id (E := Demo.env) "a@x.com" "$demo$secret1"
           None Demo.empty_world Demo.world_c Demo.record_a
           [ReqLogin Demo.body_a]); reflexivity.
Defined.

Lemma create_user_keeps_no_uniqueness_witness :
  ∃ (w1 : World) (doc : Dict),
    create_user (E := Demo.env) "a@x.com" "$demo$other" None Demo.world_a
    = (w1, inr doc) ∧
    users w1 = (users Demo.world_a ++ [doc])%list ∧
    doc !! "email" = Some (VStr "a@x.com") ∧
    ¬ email_unique (users w1) ∧
    (get_user_by_email "a@x.com" w1).2 = inr (Some Demo.record_a).
Proof.
  apply (create_user_keeps_no_uniqueness (E := Demo.env) "a@x.com"
           "$demo$other" None Demo.world_a Demo.record_a).
  - reflexivity.
  - apply existsb_false_oid_free. reflexivity.
Defined.

Lemma register_then_get_me_witness :
  ∃ (record : Dict) (created : PyVal),
    last (users Demo.world_n) = Some record ∧
    record !! "createdAt" = Some created ∧
    (get_me (E := Demo.env) Demo.claims_n
       (serve_all (E := Demo.env) [ReqLogin Demo.body_a] Demo.world_n)).2
    = inr (public_projection (E := Demo.env)
             (VOid (oid_source (oids Demo.world_a))) (VStr "n@x.com")
             (of_opt_str (Some "Nora")) created).
Proof.
  apply (register_then_get_me (E := Demo.env) Demo.user_n Demo.world_a
           Demo.world_n Demo.token_n [ReqLogin Demo.body_a] Demo.claims_n);
    reflexivity.
Defined.

Lemma second_registration_refused_witness :
  ∃ w2 : World,
    register (E := Demo.env) Demo.user_a'
      (serve_all (E := Demo.env) [ReqLogin Demo.body_a] Demo.world_a)
    = (w2, inl EmailAlreadyRegistered) ∧
    users w2
    = users (serve_all (E := Demo.env) [ReqLogin Demo.body_a] Demo.world_a).
Proof.
  apply (second_registration_refused (E := Demo.env) Demo.user_a Demo.user_a'
           Demo.empty_world Demo.world_a Demo.token_a
           [ReqLogin Demo.body_a]); reflexivity.
Defined.

Lemma lookups_are_stable_witness :
  (get_user_by_email "a@x.com"
     (serve_all (E := Demo.env) [ReqRegister Demo.body_short] Demo.world_a)).2
  = inr (Some Demo.record_a) ∧
  (get_user_by_id (E := Demo.env) (VStr "0000000000000000000003e8")
     (serve_all (E := Demo.env) [ReqRegister Demo.body_short] Demo.world_a)).2
  = inr (Some Demo.record_a).
Proof.
  destruct (lookups_are_stable (E := Demo.env) Demo.world_a
              [ReqRegister Demo.body_short] Demo.record_a) as [He Hi].
  split; [apply He | apply Hi]; reflexivity.
Defined.

Lemma login_requires_verified_password_witness :
  ∃ (user : Dict) (stored : PyVal),
    (get_user_by_email "a@x.com" Demo.world_a).2 = inr (Some user) ∧
    user !! "password" = Some stored ∧
    verify_password (E := Demo.env) "secret1" stored = true ∧
    token_type Demo.token_b = "bearer" ∧
    users Demo.world_b = users Demo.world_a.
Proof.
  apply (login_requires_verified_password (E := Demo.env) Demo.login_a
           Demo.world_a Demo.world_b Demo.token_b).
  reflexivity.
Defined.

Lemma login_record_without_password_witness :
  (login (E := Demo.env) Demo.login_legacy Demo.world_legacy).2
  = inl (KeyError "password") ∧
  status_of (KeyError "password") = 500.
Proof.
  apply (login_record_without_password (E := Demo.env) Demo.login_legacy
           Demo.world_legacy Demo.record_legacy); reflexivity.
Defined.

Lemma get_me_missing_fields_witness :
  (∃ w', get_me (E := Demo.env) Demo.claims_nameless Demo.world_legacy
         = (w', inr (public_projection (E := Demo.env) (VOid 8%N)
                       (VStr "anon@x.com") VNone (VDate 1600000000)))) ∧
  (∃ w', get_me (E := Demo.env) Demo.claims_bare Demo.world_legacy
         = (w', inl (KeyError "email"))) ∧
  (∃ w', get_me (E := Demo.env) Demo.claims_legacy Demo.world_legacy
         = (w', inl (KeyError "createdAt"))).
Proof.
  split; [|split]; eexists.
  - destruct (get_me_missing_fields (E := Demo.env) Demo.claims_nameless
                Demo.world_legacy _ Demo.record_nameless eq_refl)
      as (Hname & _).
    apply Hname; reflexivity.
  - destruct (get_me_missing_fields (E := Demo.env) Demo.claims_bare
                Demo.world_legacy _ Demo.record_bare eq_refl)
      as (_ & Hemail & _).
    apply Hemail; reflexivity.
  - destruct (get_me_missing_fields (E := Demo.env) Demo.claims_legacy
                Demo.world_legacy _ Demo.record_legacy eq_refl)
      as (_ & _ & Hcreated & _).
    apply Hcreated; [eexists|]; reflexivity.
Defined.


Lemma get_me_without_subject_witness :
  ∃ w' : World,
    get_me (E := Demo.env) Demo.claims_anon Demo.world_a
    = (w', inl UserNotFound) ∧
    oids w' = S (oids Demo.world_a) ∧
    reads w' = S (reads Demo.world_a) ∧
    users w' = users Demo.world_a.
Proof.
  apply (get_me_without_subject (E := Demo.env) Demo.claims_anon
           Demo.world_a).
  - reflexivity.
  - apply existsb_false_oid_free. reflexivity.
Defined.

Lemma refusals_use_nothing_witness :
  (register (E := Demo.env) Demo.user_a Demo.world_a).1
  = record_op (FindOne {["email" := VStr "a@x.com"]}) Demo.world_a ∧
  (login (E := Demo.env) Demo.login_wrong Demo.world_a).1
  = record_op (FindOne {["email" := VStr "a@x.com"]}) Demo.world_a.
Proof.
  destruct (refusals_use_nothing (E := Demo.env) Demo.world_a)
    as (Hreg & Hlog & _).
  split.
  - apply (Hreg Demo.user_a). reflexivity.
  - apply (Hlog Demo.login_wrong InvalidCredentials). reflexivity.
Defined.

Lemma login_has_no_minimum_length_witness :
  reads (POST_login (E := Demo.env) Demo.body_empty Demo.world_a).1
  = S (reads Demo.world_a) ∧
  (POST_login (E := Demo.env) Demo.body_empty Demo.world_a).2
  ≠ inl RequestValidationError.
Proof.
  apply (login_has_no_minimum_length (E := Demo.env) Demo.body_empty
           "a@x.com" "a@x.com" "" Demo.world_a); reflexivity.
Defined.

End Scenario.
